(** * A shallow embedding of the AI Assistant CLI core

    The modelled sources are
    - [src/utils/conversation.py]  (Message, Conversation)
    - [src/utils/cost_tracker.py]  (PRICING, CostEntry, CostTracker)
    - [src/llm/base.py], [src/llm/openai_provider.py],
      [src/llm/anthropic_provider.py]  (LLMResponse, exceptions, chat)
    - [src/main.py]  (AIAssistant.initialize_provider, send_message)

    Python strings are [String.string]; Python ints are [Z]; Python
    floats are Rocq's primitive IEEE-754 binary64 floats, whose
    operations round exactly as CPython's do.  Mutating methods are
    written as functions from the old object to the new one; effects
    that leave the Python process (SDK calls, sleeps, [close]) are
    recorded in an explicit trace. *)

From Stdlib Require Import String Ascii ZArith List Bool Floats Lia.
Import ListNotations.

Set Warnings "-inexact-float".

Open Scope string_scope.
Open Scope Z_scope.

(* ------------------------------------------------------------------ *)
(** ** src/utils/conversation.py *)

Module Conversation.

(** [Literal["user", "assistant", "system"]] *)
Inductive Role := user | assistant | system.

Definition role_str (r : Role) : string :=
  match r with
  | user => "user"
  | assistant => "assistant"
  | system => "system"
  end.

(** [@dataclass class Message: role; content] *)
Record Message := mkMessage { role : Role; content : string }.

(** The API format: the dict [{"role": ..., "content": ...}]. *)
Record WireMsg := mkWire { w_role : string; w_content : string }.

(** [Message.to_dict] *)
Definition to_dict (m : Message) : WireMsg :=
  mkWire (role_str (role m)) (content m).

(** [@dataclass class Conversation: messages = []; system_prompt = None] *)
Record Conversation := mkConversation {
  messages : list Message;
  system_prompt : option string
}.

(** Python truthiness of a [str | None]: [None] and [""] are falsy. *)
Definition truthy (s : option string) : bool :=
  match s with
  | Some p => negb (String.eqb p "")
  | None => false
  end.

(** [add_system_message]: [self.messages.append(Message("system", c))] *)
Definition add_system_message (c : string) (conv : Conversation) : Conversation :=
  mkConversation (messages conv ++ [mkMessage system c]) (system_prompt conv).

(** [add_user_message] *)
Definition add_user_message (c : string) (conv : Conversation) : Conversation :=
  mkConversation (messages conv ++ [mkMessage user c]) (system_prompt conv).

(** [add_assistant_message] *)
Definition add_assistant_message (c : string) (conv : Conversation) : Conversation :=
  mkConversation (messages conv ++ [mkMessage assistant c]) (system_prompt conv).

(** The dataclass constructor followed by [__post_init__]:
    [if self.system_prompt and not self.messages: self.add_system_message(...)]. *)
Definition new_conversation (ms : list Message) (sp : option string) : Conversation :=
  let conv := mkConversation ms sp in
  match sp, ms with
  | Some p, [] => if truthy sp then add_system_message p conv else conv
  | _, _ => conv
  end.

(** [Conversation(system_prompt=sp)]: the [messages] field at its default. *)
Definition Conversation_init (sp : option string) : Conversation :=
  new_conversation [] sp.

(** [get_messages]: [[msg.to_dict() for msg in self.messages]] *)
Definition get_messages (conv : Conversation) : list WireMsg :=
  map to_dict (messages conv).

(** [clear] *)
Definition clear (conv : Conversation) : Conversation :=
  match system_prompt conv with
  | Some p =>
      if truthy (system_prompt conv)
      then mkConversation [mkMessage system p] (system_prompt conv)
      else mkConversation [] (system_prompt conv)
  | None => mkConversation [] (system_prompt conv)
  end.

End Conversation.

(* ------------------------------------------------------------------ *)
(** ** Python numeric helpers *)

Module Py.

Open Scope float_scope.

(** [a / b] on Python ints: the quotient correctly rounded to the
    nearest binary64 (ties to even), as CPython's [long_true_divide]
    computes it.  The quotient is scaled to more than 54 significant
    bits, the remainder kept as a sticky bit, and the result rounded by
    the Standard Library's [binary_normalize].  (CPython raises
    [ZeroDivisionError] for [b = 0] and [OverflowError] past the float
    range; neither arises for the divisor [1_000_000] of the cost code
    and token counts below 10^300.) *)
Definition int_truediv (a b : Z) : float :=
  let k := (60 + Z.log2 (Z.abs b))%Z in
  let n := (Z.abs a * 2 ^ k)%Z in
  let q := (n / Z.abs b)%Z in
  let r := (n mod Z.abs b)%Z in
  let m := (2 * q + (if (r =? 0)%Z then 0 else 1))%Z in
  let neg := xorb (a <? 0)%Z (b <? 0)%Z in
  SF2Prim (SpecFloat.binary_normalize prec emax
             (if neg then (- m)%Z else m) (- k - 1)%Z false).

(** [sum(xs)] for a list of floats as CPython up to 3.11 computes it:
    [0 + x1 + x2 + ...], left to right.  (CPython 3.12 and later add a
    compensation term; see [CostMore.get_total_cost_by].) *)
Definition fsum (xs : list float) : float :=
  fold_left PrimFloat.add xs 0.

(** [x >= y] on floats (false when either is NaN). *)
Definition fge (x y : float) : bool := PrimFloat.leb y x.

(** Decimal digits of a non-negative integer. *)
Fixpoint digits_aux (fuel : nat) (n : Z) (acc : string) : string :=
  match fuel with
  | O => acc
  | S f =>
      let d := Ascii.ascii_of_nat (48 + Z.to_nat (n mod 10)) in
      if (n <? 10)%Z then String d acc else digits_aux f (n / 10) (String d acc)
  end.

Definition str_of_nonneg (n : Z) : string :=
  digits_aux (S (Z.to_nat (Z.log2 n))) n "".

Definition pad6 (s : string) : string :=
  String.append (substring 0 (6 - String.length s) "000000") s.

(** [num / den] rounded to the nearest integer, ties to even. *)
Definition round_half_even (num den : Z) : Z :=
  let q := (num / den)%Z in
  let r := (num mod den)%Z in
  if (2 * r <? den)%Z then q
  else if (den <? 2 * r)%Z then (q + 1)%Z
  else if Z.even q then q else (q + 1)%Z.

(** [f"{x:.6f}"]: the exact binary value rounded half-to-even to six
    decimals. *)
Definition format_6f (x : float) : string :=
  let fixed (s : bool) (n : Z) :=
    String.append (if s then "-" else "")
      (String.append (str_of_nonneg (n / 1000000)%Z)
         (String.append "." (pad6 (str_of_nonneg (n mod 1000000)%Z)))) in
  match Prim2SF x with
  | S754_zero s => fixed s 0%Z
  | S754_infinity s => if s then "-inf" else "inf"
  | S754_nan => "nan"
  | S754_finite s m e =>
      if (0 <=? e)%Z then fixed s (Z.pos m * 2 ^ e * 1000000)%Z
      else fixed s (round_half_even (Z.pos m * 1000000) (2 ^ (- e)))
  end.

End Py.

(* ------------------------------------------------------------------ *)
(** ** src/utils/cost_tracker.py *)

Module CostTracker.

Open Scope float_scope.

(** [PRICING = {"gpt-4o-mini": {"input": 0.150, "output": 0.600},
                "claude-3-5-haiku-20241022": {"input": 0.80, "output": 4.00}}] *)
Record Price := mkPrice { input : float; output : float }.

Definition PRICING : list (string * Price) :=
  [("gpt-4o-mini", mkPrice 0.150 0.600);
   ("claude-3-5-haiku-20241022", mkPrice 0.80 4.00)].

(** [PRICING.get(model)] on the dict. *)
Fixpoint lookup (model : string) (tbl : list (string * Price)) : option Price :=
  match tbl with
  | [] => None
  | (k, v) :: rest => if String.eqb k model then Some v else lookup model rest
  end.

(** [CostTracker.calculate_cost]. [PRICING[model]] after the fallback
    never misses: the default key is in the table. *)
Definition calculate_cost (model : string) (input_tokens output_tokens : Z) : float :=
  let model := match lookup model PRICING with
               | None => "gpt-4o-mini"
               | Some _ => model
               end in
  let pricing := match lookup model PRICING with
                 | Some p => p
                 | None => mkPrice 0 0
                 end in
  let input_cost := Py.int_truediv input_tokens 1000000 * input pricing in
  let output_cost := Py.int_truediv output_tokens 1000000 * output pricing in
  input_cost + output_cost.

(** [@dataclass class CostEntry] *)
Record CostEntry := mkEntry {
  e_provider : string;
  e_model : string;
  e_input_tokens : Z;
  e_output_tokens : Z;
  cost : float
}.

(** [@dataclass class CostTracker] *)
Record CostTracker := mkTracker {
  entries : list CostEntry;
  warning_threshold : float;
  limit_threshold : float
}.

(** [add_entry]: appends the entry and returns the cost. *)
Definition add_entry (provider model : string) (i o : Z) (t : CostTracker)
  : CostTracker * float :=
  let c := calculate_cost model i o in
  (mkTracker (entries t ++ [mkEntry provider model i o c])
             (warning_threshold t) (limit_threshold t), c).

(** [get_total_cost]: [sum(entry.cost for entry in self.entries)] *)
Definition get_total_cost (t : CostTracker) : float :=
  Py.fsum (map cost (entries t)).

(** [should_warn] / [should_stop] *)
Definition should_warn (t : CostTracker) : bool :=
  Py.fge (get_total_cost t) (warning_threshold t).

Definition should_stop (t : CostTracker) : bool :=
  Py.fge (get_total_cost t) (limit_threshold t).

End CostTracker.

(* ------------------------------------------------------------------ *)
(** ** src/llm/base.py and the exceptions the providers see *)

Module Base.

(** [@dataclass class LLMResponse] *)
Record LLMResponse := mkResponse {
  r_content : string;
  input_tokens : Z;
  output_tokens : Z;
  model : string;
  finish_reason : option string
}.

(** The Python exceptions that travel through the modelled code, each
    with the message [str(e)] returns.  The first five are raised by the
    SDK call ([openai.*] or [anthropic.*], whose class names coincide) or
    by the response extraction inside the same [try]; [OtherError] is any
    other exception class, with its name.  The next four are the classes
    of [base.py]; the last three are raised by [main.py] ([TypeError]
    by its call to [log_api_call], see [send_message]). *)
Inductive exn :=
  | SDK_APIConnectionError (msg : string)
  | SDK_RateLimitError (msg : string)
  | SDK_AuthenticationError (msg : string)
  | SDK_BadRequestError (msg : string)
  | OtherError (cls msg : string)
  | APIConnectionError (msg : string)
  | RateLimitError (msg : string)
  | AuthenticationError (msg : string)
  | InvalidRequestError (msg : string)
  | ValueError (msg : string)
  | RuntimeError (msg : string)
  | TypeError (msg : string).

(** [str(e)] *)
Definition str (e : exn) : string :=
  match e with
  | SDK_APIConnectionError m | SDK_RateLimitError m | SDK_AuthenticationError m
  | SDK_BadRequestError m | OtherError _ m | APIConnectionError m
  | RateLimitError m | AuthenticationError m | InvalidRequestError m
  | ValueError m | RuntimeError m | TypeError m => m
  end.

End Base.

(* ------------------------------------------------------------------ *)
(** ** The retry loop of [OpenAIProvider.chat] and [AnthropicProvider.chat]

    Both [chat] methods run the same loop (openai_provider.py 92-142,
    anthropic_provider.py 93-148) around their SDK call. *)

Module Retry.

Import Base.

(** Observable effects of one [chat]: an SDK request at attempt [a],
    and [await asyncio.sleep(s)] in [_wait_with_backoff]. *)
Inductive event := Call (attempt : Z) | Sleep (seconds : Z).

Definition is_call (ev : event) : bool :=
  match ev with Call _ => true | Sleep _ => false end.

Section Loop.

(** [self.max_retries] *)
Variable max_retries : Z.

(** What the body of the [try] does at attempt [a]: return the extracted
    [LLMResponse] or raise. *)
Variable create : Z -> LLMResponse + exn.

(** [_wait_with_backoff(attempt)]: [wait_time = 2 ** attempt]. *)
Definition wait_with_backoff (attempt : Z) : list event := [Sleep (2 ^ attempt)].

(** [for attempt in range(self.max_retries): try ... except ...], then
    [raise APIConnectionError("Max retries exceeded")].  [fuel] is the
    number of iterations of [range] still to run. *)
Fixpoint chat_loop (fuel : nat) (attempt : Z) : list event * (LLMResponse + exn) :=
  match fuel with
  | O => ([], inr (APIConnectionError "Max retries exceeded"))
  | S fuel' =>
      let final := Z.eqb attempt (max_retries - 1) in
      let raise (e : exn) := ([Call attempt], inr e) in
      let again :=
        let (t, r) := chat_loop fuel' (attempt + 1) in
        (Call attempt :: wait_with_backoff attempt ++ t, r) in
      match create attempt with
      | inl response => ([Call attempt], inl response)
      | inr (SDK_APIConnectionError _ as e) =>
          if final then raise (APIConnectionError ("Connection failed: " ++ str e))
          else again
      | inr (SDK_RateLimitError _ as e) =>
          if final then raise (RateLimitError ("Rate limit exceeded: " ++ str e))
          else again
      | inr (SDK_AuthenticationError _ as e) =>
          raise (AuthenticationError ("Authentication failed: " ++ str e))
      | inr (SDK_BadRequestError _ as e) =>
          raise (InvalidRequestError ("Invalid request: " ++ str e))
      | inr e =>
          if final then raise (APIConnectionError ("Unexpected error: " ++ str e))
          else again
      end
  end.

(** The loop as [chat] starts it: [range(self.max_retries)] has
    [max(0, max_retries)] iterations, from attempt 0. *)
Definition retry_chat : list event * (LLMResponse + exn) :=
  chat_loop (Z.to_nat max_retries) 0.

End Loop.

End Retry.

(* ------------------------------------------------------------------ *)
(** ** src/llm/openai_provider.py and src/llm/anthropic_provider.py *)

Module Provider.

Import Base Conversation.

Inductive Kind := OpenAI | Anthropic.

(** A provider object: the constructor arguments it stores
    ([BaseLLMProvider.__init__] plus [max_retries]) and whether [close()]
    has been awaited on its SDK client. *)
Record Provider := mkProvider {
  kind : Kind;
  api_key : string;
  p_model : string;
  p_temperature : float;
  p_max_tokens : Z;
  max_retries : Z;
  closed : bool
}.

(** The [provider_name] properties. *)
Definition provider_name (p : Provider) : string :=
  match kind p with OpenAI => "openai" | Anthropic => "anthropic" end.

(** [OpenAIProvider(api_key, model, temperature, max_tokens)] and the
    same for Anthropic: [max_retries] keeps its default 3. *)
Definition construct (k : Kind) (key model : string) (t : float) (mt : Z) : Provider :=
  mkProvider k key model t mt 3 false.

(** [await self.client.close()]. *)
Definition close (p : Provider) : Provider :=
  mkProvider (kind p) (api_key p) (p_model p) (p_temperature p)
             (p_max_tokens p) (max_retries p) true.

(** The Anthropic request: [**kwargs] of [client.messages.create]. *)
Record AnthropicKwargs := mkKwargs {
  k_model : string;
  k_messages : list WireMsg;
  k_temperature : float;
  k_max_tokens : Z;
  k_system : option string  (** [None]: no ["system"] key *)
}.

(** What each SDK call is sent. *)
Inductive Request :=
  | OpenAIRequest (model : string) (messages : list WireMsg) (temperature : float) (max_tokens : Z)
  | AnthropicRequest (kw : AnthropicKwargs).

(** anthropic_provider.py 84-91:
    [for msg in messages: if msg["role"] == "system": system_message = msg["content"]
                          else: api_messages.append(msg)] *)
Fixpoint extract_system (ms : list WireMsg) (system_message : option string)
  (api_messages : list WireMsg) : option string * list WireMsg :=
  match ms with
  | [] => (system_message, api_messages)
  | msg :: rest =>
      if String.eqb (w_role msg) "system"
      then extract_system rest (Some (w_content msg)) api_messages
      else extract_system rest system_message (api_messages ++ [msg])
  end.

(** anthropic_provider.py 97-105: the kwargs; the ["system"] key is set
    only [if system_message:]. *)
Definition anthropic_kwargs (model : string) (messages : list WireMsg)
  (temp : float) (max_tok : Z) : AnthropicKwargs :=
  let (system_message, api_messages) := extract_system messages None [] in
  mkKwargs model api_messages temp max_tok
           (if truthy system_message then system_message else None).

(** The request a provider sends for [messages] and the overrides. *)
Definition request (p : Provider) (messages : list WireMsg)
  (temperature : option float) (max_tokens : option Z) : Request :=
  let temp := match temperature with Some t => t | None => p_temperature p end in
  let max_tok := match max_tokens with Some m => m | None => p_max_tokens p end in
  match kind p with
  | OpenAI => OpenAIRequest (p_model p) messages temp max_tok
  | Anthropic => AnthropicRequest (anthropic_kwargs (p_model p) messages temp max_tok)
  end.

(** [chat(messages, temperature, max_tokens)].  [sdk req a] is what the
    SDK call (with the response extraction) does at attempt [a]. *)
Definition chat (sdk : Request -> Z -> LLMResponse + exn) (p : Provider)
  (messages : list WireMsg) (temperature : option float) (max_tokens : option Z)
  : list Retry.event * (LLMResponse + exn) :=
  let req := request p messages temperature max_tokens in
  Retry.retry_chat (max_retries p) (sdk req).

End Provider.

(* ------------------------------------------------------------------ *)
(** ** src/main.py *)

Module Main.

Import Base Conversation CostTracker Provider.

(** The fields of [Settings] that [AIAssistant] reads. *)
Record Settings := mkSettings {
  openai_api_key : string;
  anthropic_api_key : string;
  default_provider : string;
  temperature : float;
  max_tokens : Z;
  cost_warning_threshold : float;
  cost_limit_threshold : float
}.

(** The attributes of an [AIAssistant]. *)
Record AIAssistant := mkAssistant {
  settings : Settings;
  conversation : Conversation;
  cost_tracker : CostTracker;
  current_provider_name : string;
  provider : option Provider
}.

(** [AIAssistant.__init__]. *)
Definition AIAssistant_init (s : Settings) : AIAssistant :=
  mkAssistant s
    (Conversation_init (Some "You are a helpful AI assistant. Be concise and friendly."))
    (mkTracker [] (cost_warning_threshold s) (cost_limit_threshold s))
    (default_provider s) None.

Definition set_provider (p : option Provider) (st : AIAssistant) : AIAssistant :=
  mkAssistant (settings st) (conversation st) (cost_tracker st)
              (current_provider_name st) p.

Definition set_current (n : string) (st : AIAssistant) : AIAssistant :=
  mkAssistant (settings st) (conversation st) (cost_tracker st) n (provider st).

Definition set_state (c : Conversation) (t : CostTracker) (st : AIAssistant) : AIAssistant :=
  mkAssistant (settings st) c t (current_provider_name st) (provider st).

(** Effects of [initialize_provider] on provider objects. *)
Inductive effect := Closed (p : Provider) | Constructed (p : Provider).

(** [initialize_provider(provider_name)].  The old provider's [close()]
    is awaited inside [try: ... except Exception: pass], so whether it
    raises does not change the control flow. *)
Definition initialize_provider (provider_name : string) (st : AIAssistant)
  : list effect * AIAssistant * (unit + exn) :=
  let '(closes, st1) :=
    match provider st with
    | Some p => ([Closed p], set_provider (Some (close p)) st)
    | None => ([], st)
    end in
  let s := settings st1 in
  let install (p : Provider) :=
    ((closes ++ [Constructed p])%list,
     set_current provider_name (set_provider (Some p) st1), inl tt) in
  if String.eqb provider_name "openai" then
    install (construct OpenAI (openai_api_key s) "gpt-4o-mini" (temperature s) (max_tokens s))
  else if String.eqb provider_name "anthropic" then
    install (construct Anthropic (anthropic_api_key s) "claude-3-5-haiku-20241022"
                       (temperature s) (max_tokens s))
  else (closes, st1, inr (ValueError ("Unknown provider: " ++ provider_name))).

(** The error of the call [log_api_call(logger, provider=...,
    model=..., input_tokens=..., output_tokens=..., cost=cost)] at
    main.py 133-140: [utils/logger.py] declares [log_api_call(logger,
    provider, model, prompt_tokens, completion_tokens, cost)], so Python
    rejects the call before entering the function. *)
Definition log_api_call_error : exn :=
  TypeError "log_api_call() got an unexpected keyword argument 'input_tokens'".

(** [send_message(user_message)].  The [logger] records are not
    modelled: they do not feed back into the state.  After a successful
    [chat] the assistant message and the cost entry are recorded, then
    the [log_api_call] call raises [log_api_call_error], so the method
    never reaches its [return]. *)
Definition send_message (sdk : Request -> Z -> LLMResponse + exn)
  (user_message : string) (st : AIAssistant)
  : list Retry.event * AIAssistant * (string + exn) :=
  match provider st with
  | None => ([], st, inr (RuntimeError "Provider not initialized"))
  | Some p =>
      let ct := cost_tracker st in
      if should_stop ct then
        ([], st, inr (RuntimeError ("Cost limit reached! Total: $"
                                    ++ Py.format_6f (get_total_cost ct))))
      else
        let conv1 := add_user_message user_message (conversation st) in
        let messages := get_messages conv1 in
        let (evs, res) := chat sdk p messages None None in
        match res with
        | inr e => (evs, set_state conv1 ct st, inr e)
        | inl response =>
            let conv2 := add_assistant_message (r_content response) conv1 in
            let (ct2, _) := add_entry (provider_name p) (model response)
                              (input_tokens response) (output_tokens response) ct in
            (evs, set_state conv2 ct2 st, inr log_api_call_error)
        end
  end.

End Main.

(* ------------------------------------------------------------------ *)
(** ** Reference descriptions used in the statements below

    These follow the wording of the specification; each theorem relates
    one of them to the definitions embedded from the source. *)

Module SpecSide.

Import Base Retry Conversation.

(** The trace of [n] failed attempts from attempt [a] under the backoff
    policy: attempt [a], a wait of [2^a] seconds, attempt [a+1], ...,
    and no wait after the last attempt. *)
Fixpoint backoff_trace (a : Z) (n : nat) : list event :=
  match n with
  | O => []
  | S O => [Call a]
  | S n' => Call a :: Sleep (2 ^ a) :: backoff_trace (a + 1) n'
  end.

(** The uniform error a transient SDK failure is surfaced as. *)
Definition surfaced_transient (o : LLMResponse + exn) : option exn :=
  match o with
  | inr (SDK_APIConnectionError m) => Some (APIConnectionError ("Connection failed: " ++ m))
  | inr (SDK_RateLimitError m) => Some (RateLimitError ("Rate limit exceeded: " ++ m))
  | _ => None
  end.

(** Failures outside the four classified SDK kinds. *)
Definition unclassified (e : exn) : bool :=
  match e with
  | SDK_APIConnectionError _ | SDK_RateLimitError _
  | SDK_AuthenticationError _ | SDK_BadRequestError _ => false
  | _ => true
  end.

(** The error a retryable SDK failure is surfaced as when it happens on
    the last attempt. *)
Definition surfaced_retryable (o : LLMResponse + exn) : option exn :=
  match o with
  | inr e =>
      match surfaced_transient o with
      | Some s => Some s
      | None => if unclassified e
                then Some (APIConnectionError ("Unexpected error: " ++ str e))
                else None
      end
  | inl _ => None
  end.

Definition is_system (m : WireMsg) : bool := String.eqb (w_role m) "system".

(** The content of the last message with role [system], if any. *)
Definition last_system (ms : list WireMsg) : option string :=
  match rev (filter is_system ms) with
  | m :: _ => Some (w_content m)
  | [] => None
  end.

(** The per-million prices of the specification's table, the
    [gpt-4o-mini] entry standing for every unknown model. *)
Definition spec_prices (model : string) : float * float :=
  if String.eqb model "claude-3-5-haiku-20241022" then (0.80, 4.00)%float
  else (0.150, 0.600)%float.

(** [|x - y| <= eps] on floats. *)
Definition within (eps x y : float) : bool :=
  PrimFloat.leb (PrimFloat.abs (x - y)) eps.

End SpecSide.

(* ------------------------------------------------------------------ *)
(** ** Further code of the same files *)

Module ConversationMore.

Import Conversation.

Definition role_eqb (a b : Role) : bool :=
  match a, b with
  | user, user | assistant, assistant | system, system => true
  | _, _ => false
  end.

(** [for msg in ms: if msg.role == r: return msg.content]; [None] at the end. *)
Fixpoint first_content (r : Role) (ms : list Message) : option string :=
  match ms with
  | [] => None
  | m :: rest => if role_eqb (role m) r then Some (content m) else first_content r rest
  end.

(** [get_message_count] / [__len__]: [len(self.messages)] *)
Definition get_message_count (conv : Conversation) : nat := length (messages conv).

(** [get_last_user_message]: the scan over [reversed(self.messages)]. *)
Definition get_last_user_message (conv : Conversation) : option string :=
  first_content user (rev (messages conv)).

(** [get_last_assistant_message] *)
Definition get_last_assistant_message (conv : Conversation) : option string :=
  first_content assistant (rev (messages conv)).

(** The methods of the store that mutate it, as a caller drives them. *)
Inductive Op :=
  | AddUser (c : string)
  | AddAssistant (c : string)
  | AddSystem (c : string)
  | Clear.

Definition run_op (conv : Conversation) (o : Op) : Conversation :=
  match o with
  | AddUser c => add_user_message c conv
  | AddAssistant c => add_assistant_message c conv
  | AddSystem c => add_system_message c conv
  | Clear => clear conv
  end.

Definition run_ops (conv : Conversation) (os : list Op) : Conversation :=
  fold_left run_op os conv.

End ConversationMore.

Module PyStr.

(** ["\n"] *)
Definition nl : string := String (Ascii.ascii_of_nat 10) "".

(** [s * n] *)
Fixpoint rep (n : nat) (s : string) : string :=
  match n with O => "" | S k => s ++ rep k s end.

(** [sep.join(xs)] *)
Fixpoint join (sep : string) (xs : list string) : string :=
  match xs with
  | [] => ""
  | [x] => x
  | x :: rest => x ++ sep ++ join sep rest
  end.

(** [s.startswith(p)] *)
Definition startswith (p s : string) : bool := String.prefix p s.

(** [needle in hay] on strings *)
Fixpoint contains (needle hay : string) : bool :=
  String.prefix needle hay
  || match hay with EmptyString => false | String _ rest => contains needle rest end.

(** [s.split(":")] (with a one-character separator). *)
Fixpoint split_on (sep : ascii) (s : string) : list string :=
  match s with
  | EmptyString => [""]
  | String c rest =>
      if Ascii.eqb c sep then "" :: split_on sep rest
      else match split_on sep rest with
           | w :: ws => String c w :: ws
           | [] => [String c ""]
           end
  end.

(** [f"{n}"] for an int. *)
Definition str_int (n : Z) : string :=
  if (n <? 0)%Z then "-" ++ Py.str_of_nonneg (- n) else Py.str_of_nonneg n.

Fixpoint zeros (n : nat) : string :=
  match n with O => "" | S k => String "0" (zeros k) end.

Definition pad_left (w : nat) (s : string) : string :=
  zeros (w - String.length s) ++ s.

(** The digit groups of [f"{n:,}"] for [n >= 0]. *)
Fixpoint group3 (fuel : nat) (n : Z) : string :=
  match fuel with
  | O => Py.str_of_nonneg n
  | S f =>
      if (n <? 1000)%Z then Py.str_of_nonneg n
      else group3 f (n / 1000) ++ "," ++ pad_left 3 (Py.str_of_nonneg (n mod 1000))
  end.

(** [f"{n:,}"] *)
Definition str_int_commas (n : Z) : string :=
  let a := Z.abs n in
  (if (n <? 0)%Z then "-" else "") ++ group3 (S (Z.to_nat (Z.log2 a))) a.

(** [f"{x:.2f}"]: the exact binary value rounded half-to-even to two
    decimals. *)
Definition format_2f (x : float) : string :=
  let fixed (s : bool) (n : Z) :=
    (if s then "-" else "") ++ Py.str_of_nonneg (n / 100) ++ "."
    ++ pad_left 2 (Py.str_of_nonneg (n mod 100)) in
  match Prim2SF x with
  | S754_zero s => fixed s 0
  | S754_infinity s => if s then "-inf" else "inf"
  | S754_nan => "nan"
  | S754_finite s m e =>
      if (0 <=? e)%Z then fixed s (Z.pos m * 2 ^ e * 100)
      else fixed s (Py.round_half_even (Z.pos m * 100) (2 ^ (- e)))
  end.

(** The string with every comma taken out. *)
Fixpoint drop_commas (s : string) : string :=
  match s with
  | EmptyString => EmptyString
  | String c rest =>
      if Ascii.eqb c "," then drop_commas rest else String c (drop_commas rest)
  end.

End PyStr.

Module CostMore.

Import CostTracker PyStr.

(** [get_total_tokens] *)
Definition get_total_tokens (t : CostTracker) : Z * Z :=
  (fold_left Z.add (map e_input_tokens (entries t)) 0%Z,
   fold_left Z.add (map e_output_tokens (entries t)) 0%Z).

(** [reset]: [self.entries = []] *)
Definition reset (t : CostTracker) : CostTracker :=
  mkTracker [] (warning_threshold t) (limit_threshold t).

(** [get_summary], line by line before the final [join]. *)
Definition summary_lines (t : CostTracker) : list string :=
  let total_cost := get_total_cost t in
  let (total_input, total_output) := get_total_tokens t in
  [rep 60 "=";
   "💰 SESSION COST SUMMARY";
   rep 60 "=";
   "Total API Calls: " ++ str_int (Z.of_nat (length (entries t)));
   "Total Tokens: " ++ str_int_commas total_input ++ " input → "
     ++ str_int_commas total_output ++ " output";
   "Total Cost: $" ++ Py.format_6f total_cost;
   "";
   "Warning Threshold: $" ++ format_2f (warning_threshold t);
   "Limit Threshold: $" ++ format_2f (limit_threshold t)]
  ++ (if should_stop t then
        [nl ++ "⚠️  LIMIT EXCEEDED! Cost has reached $" ++ Py.format_6f total_cost]
      else if should_warn t then
        [nl ++ "⚠️  Warning: Cost is $" ++ Py.format_6f total_cost]
      else [])
  ++ [rep 60 "="].

Definition get_summary (t : CostTracker) : string := join nl (summary_lines t).

(** [get_total_cost], [should_warn] and [should_stop] with the built-in
    [sum] of the running interpreter left open.  CPython up to 3.11 adds
    left to right ([Py.fsum], the instance [CostTracker.get_total_cost]
    uses); 3.12 and later keep a compensation term, so the float result
    depends on the version. *)
Section AnySum.

Variable py_sum : list float -> float.

(** [sum(entry.cost for entry in self.entries)] *)
Definition get_total_cost_by (t : CostTracker) : float :=
  py_sum (map cost (entries t)).

(** [self.get_total_cost() >= self.warning_threshold] *)
Definition should_warn_by (t : CostTracker) : bool :=
  Py.fge (get_total_cost_by t) (warning_threshold t).

(** [self.get_total_cost() >= self.limit_threshold] *)
Definition should_stop_by (t : CostTracker) : bool :=
  Py.fge (get_total_cost_by t) (limit_threshold t).

End AnySum.

End CostMore.

(** ** src/config.py and the REPL of src/main.py

    The Unicode-aware [str] methods [strip()], [lower()], [upper()] and
    [split()] are not modelled: the definitions below take them as
    parameters, and every property is proved for all of them. *)

Module Config.

Section Validators.

Variable lower upper : string -> string.

(** [str(allowed)] for a set: its element order varies between runs. *)
Variable provider_set_repr level_set_repr : string.

(** [Settings.validate_provider] *)
Definition validate_provider (v : string) : string + Base.exn :=
  let l := lower v in
  if String.eqb l "openai" || String.eqb l "anthropic" then inl l
  else inr (Base.ValueError ("Provider must be one of " ++ provider_set_repr
                             ++ ", got '" ++ v ++ "'")).

(** [Settings.validate_log_level] *)
Definition validate_log_level (v : string) : string + Base.exn :=
  let u := upper v in
  if existsb (String.eqb u) ["DEBUG"; "INFO"; "WARNING"; "ERROR"; "CRITICAL"] then inl u
  else inr (Base.ValueError ("Log level must be one of " ++ level_set_repr
                             ++ ", got '" ++ v ++ "'")).

End Validators.

End Config.

Module Repl.

Import Base Conversation CostTracker Provider Main PyStr.

Section Commands.

Variable strip lower : string -> string.
(** [str.split()] with no argument. *)
Variable split_ws : string -> list string.
(** [s[:100]] *)
Variable slice100 : string -> string.

Definition help_text : string :=
  nl ++ "Available Commands:" ++ nl
  ++ "  /help        - Show this help message" ++ nl
  ++ "  /clear       - Clear conversation history" ++ nl
  ++ "  /quit, /exit - Exit the application" ++ nl
  ++ "  /model <provider> - Switch provider (openai or anthropic)" ++ nl
  ++ "  /cost        - Show cost summary" ++ nl
  ++ "  /history     - Show conversation history" ++ nl.

(** [msg.role.upper()] *)
Definition role_upper (r : Role) : string :=
  match r with user => "USER" | assistant => "ASSISTANT" | system => "SYSTEM" end.

Definition set_conversation (c : Conversation) (st : AIAssistant) : AIAssistant :=
  set_state c (cost_tracker st) st.

(** [AIAssistant.handle_command] *)
Definition handle_command (command : string) (st : AIAssistant)
  : AIAssistant * option string :=
  let command := lower (strip command) in
  if String.eqb command "/help" then (st, Some help_text)
  else if String.eqb command "/clear" then
    (set_conversation (clear (conversation st)) st,
     Some "‚úÖ Conversation history cleared!")
  else if String.eqb command "/quit" || String.eqb command "/exit" then (st, Some "QUIT")
  else if startswith "/model" command then
    let parts := split_ws command in
    if negb (Nat.eqb (length parts) 2) then
      (st, Some "‚ùå Usage: /model <openai|anthropic>")
    else
      let provider := lower (nth 1 parts "") in
      if negb (String.eqb provider "openai" || String.eqb provider "anthropic") then
        (st, Some "‚ùå Provider must be 'openai' or 'anthropic'")
      else (st, Some ("SWITCH_MODEL:" ++ provider))
  else if String.eqb command "/cost" then (st, Some (CostMore.get_summary (cost_tracker st)))
  else if String.eqb command "/history" then
    match messages (conversation st) with
    | [] => (st, Some "No conversation history yet.")
    | ms =>
        (st, Some (join nl (["Conversation History:"; rep 60 "="]
                            ++ map (fun m => role_upper (role m) ++ ": "
                                             ++ slice100 (content m) ++ "...") ms
                            ++ [rep 60 "="])))
    end
  else (st, None).

(** How one iteration of the [while True] loop of [main()] ends. *)
Inductive outcome :=
  | Continue                     (** next iteration *)
  | Quit                         (** [break] after ["QUIT"] *)
  | ShownError (e : exn)         (** [except RuntimeError], printed, loop goes on *)
  | CostStop (e : exn)           (** [except RuntimeError] with "Cost limit": [break] *)
  | LoggedError (e : exn).       (** [except Exception]: logged, loop goes on *)

(** One iteration of the loop of [main()] on the line [raw] read by
    [input()]; what it prints is not modelled. *)
Definition repl_step (sdk : Request -> Z -> LLMResponse + exn) (raw : string)
  (st : AIAssistant) : AIAssistant * outcome :=
  let user_input := strip raw in
  if String.eqb user_input "" then (st, Continue)
  else if startswith "/" user_input then
    let (st1, result) := handle_command user_input st in
    match result with
    | Some r =>
        if String.eqb r "QUIT" then (st1, Quit)
        else if startswith "SWITCH_MODEL:" r then
          match nth_error (split_on ":" r) 1 with
          | Some provider_name =>
              let '(_, st2, res) := initialize_provider provider_name st1 in
              match res with
              | inl _ => (st2, Continue)
              | inr e => (st2, LoggedError e)
              end
          | None => (st1, LoggedError (OtherError "IndexError" "list index out of range"))
          end
        else (st1, Continue)
    | None => (st1, Continue)
    end
  else
    let '(_, st1, res) := send_message sdk user_input st in
    match res with
    | inl _ => (st1, Continue)
    | inr (RuntimeError m) =>
        if contains "Cost limit" m then (st1, CostStop (RuntimeError m))
        else (st1, ShownError (RuntimeError m))
    | inr e => (st1, LoggedError e)
    end.

(** The [while True] loop over the lines the user types, each paired
    with how the SDK behaves during that turn; it ends after the lines or
    at a [break]. *)
Fixpoint run_repl (lines : list ((Request -> Z -> LLMResponse + exn) * string))
  (st : AIAssistant) : AIAssistant * list outcome :=
  match lines with
  | [] => (st, [])
  | (sdk, raw) :: rest =>
      let (st1, o) := repl_step sdk raw st in
      match o with
      | Quit | CostStop _ => (st1, [o])
      | _ => let (st2, os) := run_repl rest st1 in (st2, o :: os)
      end
  end.

End Commands.

End Repl.

Module RetryMore.

Import Base.

(** [isinstance(e, ProviderError)]: the four classes of base.py. *)
Definition is_provider_error (e : exn) : bool :=
  match e with
  | APIConnectionError _ | RateLimitError _ | AuthenticationError _
  | InvalidRequestError _ => true
  | _ => false
  end.

(** What [chat] ends with when attempt [a]'s outcome is not retried: the
    response, or the [AuthenticationError] / [InvalidRequestError] the
    two [except] clauses without retry raise. *)
Definition decisive (o : LLMResponse + exn) : LLMResponse + exn :=
  match o with
  | inr (SDK_AuthenticationError m) => inr (AuthenticationError ("Authentication failed: " ++ m))
  | inr (SDK_BadRequestError m) => inr (InvalidRequestError ("Invalid request: " ++ m))
  | o => o
  end.

(** The seconds a trace spends in [asyncio.sleep]. *)
Fixpoint total_sleep (t : list Retry.event) : Z :=
  match t with
  | [] => 0
  | Retry.Sleep s :: rest => s + total_sleep rest
  | Retry.Call _ :: rest => total_sleep rest
  end.

End RetryMore.

(* ================================================================== *)
(** * Properties *)

Module ConversationFacts.

Import Conversation.
Local Open Scope list_scope.

Lemma get_messages_app (ms : list Message) sp m :
  get_messages (mkConversation (ms ++ [m]) sp) =
  get_messages (mkConversation ms sp) ++ [to_dict m].
Proof. unfold get_messages; simpl. now rewrite map_app. Qed.

(** The [add_*] methods keep [system_prompt]. *)
Lemma add_user_prompt c conv : system_prompt (add_user_message c conv) = system_prompt conv.
Proof. reflexivity. Qed.

Lemma add_assistant_prompt c conv :
  system_prompt (add_assistant_message c conv) = system_prompt conv.
Proof. reflexivity. Qed.

Lemma new_conversation_prompt ms sp : system_prompt (new_conversation ms sp) = sp.
Proof.
  destruct sp as [p|], ms; simpl; try reflexivity.
  unfold truthy; destruct (String.eqb p ""); reflexivity.
Qed.

Example roundtrip_empty :
  get_messages (add_assistant_message "Hi" (add_user_message "Hello" (Conversation_init None)))
  = [mkWire "user" "Hello"; mkWire "assistant" "Hi"].
Proof. reflexivity. Qed.

(** C7 as stated fails: a store constructed with a system prompt also
    returns its system message. *)
Lemma C7_counterexample :
  get_messages (add_assistant_message "Hi"
                  (add_user_message "Hello" (Conversation_init (Some "Be helpful."))))
  = [mkWire "system" "Be helpful."; mkWire "user" "Hello"; mkWire "assistant" "Hi"]
  /\ get_messages (add_assistant_message "Hi"
                     (add_user_message "Hello" (Conversation_init (Some "Be helpful."))))
     <> [mkWire "user" "Hello"; mkWire "assistant" "Hi"].
Proof. split; [reflexivity | discriminate]. Qed.

(** C7 (amended).  Appending a user then an assistant message adds
    exactly [{role:"user"}, {role:"assistant"}] at the end of the wire
    list, which is then exactly these two for a store with no messages;
    [clear()] leaves only the system message when the store's system
    prompt is a non-empty string, and no message when it is [None] or
    empty. *)
Theorem C7_roundtrip_and_clear (conv : Conversation) (u a : string) :
  get_messages (add_assistant_message a (add_user_message u conv))
    = get_messages conv ++ [mkWire "user" u; mkWire "assistant" a]
  /\ (messages conv = [] ->
      get_messages (add_assistant_message a (add_user_message u conv))
        = [mkWire "user" u; mkWire "assistant" a])
  /\ (forall p, system_prompt conv = Some p -> p <> "" ->
      messages (clear conv) = [mkMessage system p])
  /\ (system_prompt conv = None \/ system_prompt conv = Some "" ->
      messages (clear conv) = []).
Proof.
  destruct conv as [ms sp]; unfold add_assistant_message, add_user_message; simpl.
  rewrite get_messages_app, get_messages_app, <- app_assoc. split; [reflexivity|].
  split; [intros ->; reflexivity|]. split.
  - intros p -> Hp. unfold clear, truthy; simpl.
    destruct (String.eqb_spec p "") as [E|E]; [contradiction | reflexivity].
  - intros [-> | ->]; reflexivity.
Qed.

Lemma C7_roundtrip_and_clear_witness :
  messages (mkConversation [] (Some "Be helpful.")) = []
  /\ (Some "Be helpful." = Some "Be helpful." /\ "Be helpful." <> "")
  /\ messages (clear (mkConversation [] (Some "Be helpful.")))
     = [mkMessage system "Be helpful."]
  /\ get_messages (add_assistant_message "Hi" (add_user_message "Hello"
                     (mkConversation [] (Some "Be helpful."))))
     = [mkWire "user" "Hello"; mkWire "assistant" "Hi"].
Proof.
  pose proof (C7_roundtrip_and_clear (mkConversation [] (Some "Be helpful.")) "Hello" "Hi")
    as (_ & H2 & H3 & _).
  split; [reflexivity|]. split; [split; [reflexivity | discriminate]|].
  split; [apply H3; [reflexivity | discriminate] | apply H2; reflexivity].
Defined.

(** C10.  The empty string as system prompt acts as no prompt: the
    constructor appends nothing (so [Conversation(system_prompt="")]
    starts empty), and [clear()] on such a store leaves no message. *)
Theorem C10_empty_prompt_is_no_prompt (ms : list Message) :
  messages (new_conversation ms (Some "")) = ms
  /\ messages (new_conversation ms (Some "")) = messages (new_conversation ms None)
  /\ messages (Conversation_init (Some "")) = []
  /\ (forall conv, system_prompt conv = Some "" -> messages (clear conv) = []).
Proof.
  split; [destruct ms; reflexivity|]. split; [destruct ms; reflexivity|].
  split; [reflexivity|]. intros [cms csp] H; simpl in H; subst; reflexivity.
Qed.

Lemma C10_empty_prompt_is_no_prompt_witness :
  system_prompt (add_user_message "Hello" (Conversation_init (Some ""))) = Some ""
  /\ messages (clear (add_user_message "Hello" (Conversation_init (Some "")))) = [].
Proof.
  split; [reflexivity|].
  apply (C10_empty_prompt_is_no_prompt []). reflexivity.
Defined.

End ConversationFacts.

Module CostFacts.

Import CostTracker SpecSide.
Local Open Scope float_scope.

Example cost_gpt : calculate_cost "gpt-4o-mini" 1000 500 = 0.00045.
Proof. vm_compute. reflexivity. Qed.

Example cost_claude : calculate_cost "claude-3-5-haiku-20241022" 1000 500 = 0.0028.
Proof. vm_compute. reflexivity. Qed.

Lemma int_truediv_exact : Py.int_truediv 15 100 = 0.15.
Proof. vm_compute. reflexivity. Qed.

(** The price [calculate_cost] reads for any model name. *)
Lemma calculate_cost_prices (model : string) (i o : Z) :
  calculate_cost model i o =
  Py.int_truediv i 1000000 * fst (spec_prices model)
  + Py.int_truediv o 1000000 * snd (spec_prices model).
Proof.
  unfold calculate_cost, spec_prices, PRICING. cbn [lookup].
  destruct (String.eqb "gpt-4o-mini" model) eqn:E1.
  - apply String.eqb_eq in E1. subst. reflexivity.
  - destruct (String.eqb "claude-3-5-haiku-20241022" model) eqn:E2.
    + apply String.eqb_eq in E2. subst. reflexivity.
    + rewrite (String.eqb_sym model "claude-3-5-haiku-20241022"), E2. reflexivity.
Qed.

(** C4.  [calculate_cost] is [input/1e6 * input price + output/1e6 *
    output price] in the program's float arithmetic, with the
    [gpt-4o-mini] prices for an unknown model; the two reference values
    hold within 1e-10; and an unknown model costs what [gpt-4o-mini]
    costs. *)
Theorem C4_calculate_cost (model : string) (i o : Z) :
  calculate_cost model i o =
    Py.int_truediv i 1000000 * fst (spec_prices model)
    + Py.int_truediv o 1000000 * snd (spec_prices model)
  /\ within 1e-10 (calculate_cost "gpt-4o-mini" 1000 500) 0.00045 = true
  /\ within 1e-10 (calculate_cost "claude-3-5-haiku-20241022" 1000 500) 0.0028 = true
  /\ (lookup model PRICING = None ->
      calculate_cost model i o = calculate_cost "gpt-4o-mini" i o).
Proof.
  split; [apply calculate_cost_prices|].
  split; [vm_compute; reflexivity|]. split; [vm_compute; reflexivity|].
  intros H. unfold calculate_cost. rewrite H. reflexivity.
Qed.

Lemma C4_calculate_cost_witness :
  lookup "gpt-5" PRICING = None
  /\ calculate_cost "gpt-5" 1000 500 = calculate_cost "gpt-4o-mini" 1000 500.
Proof.
  split; [reflexivity|].
  apply (C4_calculate_cost "gpt-5" 1000 500). reflexivity.
Defined.

(** The entries' costs summed left to right, starting from 0, as
    Python's [sum] does. *)
Lemma total_cost_fold (t : CostTracker) :
  get_total_cost t = fold_left (fun acc e => acc + cost e) (entries t) 0.
Proof.
  unfold get_total_cost, Py.fsum. generalize 0.
  induction (entries t) as [|e es IH]; intros acc; simpl; [reflexivity | apply IH].
Qed.

(** C8.  Whatever the interpreter's built-in [sum] is (left to right
    up to CPython 3.11, compensated from 3.12), [should_warn()] holds iff
    the sum of the entry costs, in ledger order, is at least
    [warning_threshold], and [should_stop()] iff it is at least
    [limit_threshold], with IEEE [>=] (false when a side is NaN).  The
    [CostTracker] methods are the instance for the left-to-right sum. *)
Theorem C8_thresholds (py_sum : list float -> float) (t : CostTracker) :
  (CostMore.should_warn_by py_sum t = true <->
   PrimFloat.leb (warning_threshold t) (py_sum (map cost (entries t))) = true)
  /\ (CostMore.should_stop_by py_sum t = true <->
      PrimFloat.leb (limit_threshold t) (py_sum (map cost (entries t))) = true)
  /\ should_warn t = CostMore.should_warn_by Py.fsum t
  /\ should_stop t = CostMore.should_stop_by Py.fsum t
  /\ (should_warn t = true <->
      PrimFloat.leb (warning_threshold t)
        (fold_left (fun acc e => acc + cost e) (entries t) 0) = true)
  /\ (should_stop t = true <->
      PrimFloat.leb (limit_threshold t)
        (fold_left (fun acc e => acc + cost e) (entries t) 0) = true).
Proof.
  unfold CostMore.should_warn_by, CostMore.should_stop_by, CostMore.get_total_cost_by.
  unfold should_warn, should_stop, Py.fge.
  split; [reflexivity|]. split; [reflexivity|].
  split; [reflexivity|]. split; [reflexivity|].
  rewrite total_cost_fold. split; reflexivity.
Qed.

End CostFacts.

Module RetryFacts.

Import Base Retry SpecSide.
Local Open Scope list_scope.

Lemma backoff_trace_calls (a : Z) (n : nat) :
  length (filter is_call (backoff_trace a n)) = n.
Proof.
  revert a; induction n as [|[|n] IH]; intros a; [reflexivity | reflexivity |].
  change (backoff_trace a (S (S n)))
    with (Call a :: Sleep (2 ^ a) :: backoff_trace (a + 1) (S n)).
  simpl. f_equal. apply IH.
Qed.

Section Loop.

Variable N : Z.
Variable create : Z -> LLMResponse + exn.

(** One iteration that is not the last one retries. *)
Lemma chat_loop_again (fuel : nat) (a : Z) (e : exn) :
  a <> N - 1 -> create a = inr e -> surfaced_retryable (inr e) <> None ->
  chat_loop N create (S fuel) a =
    let (t, r) := chat_loop N create fuel (a + 1) in (Call a :: Sleep (2 ^ a) :: t, r).
Proof.
  intros Hna Ec Hr. cbn [chat_loop]. rewrite Ec.
  rewrite (proj2 (Z.eqb_neq a (N - 1)) Hna).
  destruct (chat_loop N create fuel (a + 1)) as [t r].
  destruct e; try reflexivity; simpl in Hr; contradiction.
Qed.

(** The last iteration raises the surfaced error. *)
Lemma chat_loop_final (fuel : nat) (a : Z) (e s : exn) :
  a = N - 1 -> create a = inr e -> surfaced_retryable (inr e) = Some s ->
  chat_loop N create (S fuel) a = ([Call a], inr s).
Proof.
  intros Ha Ec Hs. cbn [chat_loop]. rewrite Ec.
  rewrite (proj2 (Z.eqb_eq a (N - 1)) Ha).
  destruct e; simpl in Hs; try discriminate; injection Hs as <-; reflexivity.
Qed.

(** A run in which every attempt fails retryably. *)
Lemma chat_loop_all_retryable (fuel : nat) : forall a,
  (1 <= fuel)%nat -> a + Z.of_nat fuel = N ->
  (forall b, a <= b < N -> surfaced_retryable (create b) <> None) ->
  fst (chat_loop N create fuel a) = backoff_trace a fuel
  /\ (forall s, surfaced_retryable (create (N - 1)) = Some s ->
      snd (chat_loop N create fuel a) = inr s).
Proof.
  induction fuel as [|f IH]; intros a Hf Ha Hall; [lia|].
  assert (Hb := Hall a ltac:(lia)).
  destruct (create a) as [r|e] eqn:Ec; [contradiction|].
  destruct f as [|f].
  - assert (Hfin : a = N - 1) by lia.
    destruct (surfaced_retryable (inr e)) as [s0|] eqn:Hs; [|contradiction].
    rewrite (chat_loop_final 0 a e s0 Hfin Ec Hs). split; [reflexivity|].
    intros s Hs'. rewrite <- Hfin, Ec, Hs in Hs'. now injection Hs' as ->.
  - assert (Hna : a <> N - 1) by lia.
    rewrite (chat_loop_again (S f) a e Hna Ec Hb).
    destruct (IH (a + 1) ltac:(lia) ltac:(lia) ltac:(intros b Hb'; apply Hall; lia))
      as [IH1 IH2].
    destruct (chat_loop N create (S f) (a + 1)) as [t r0]; simpl in IH1, IH2 |- *.
    split; [now rewrite IH1 | exact IH2].
Qed.

End Loop.

Lemma surfaced_transient_retryable (o : LLMResponse + exn) (s : exn) :
  surfaced_transient o = Some s -> surfaced_retryable o = Some s.
Proof. destruct o as [|e]; [discriminate|]. simpl. now intros ->. Qed.

Lemma retryable_transient (o : LLMResponse + exn) :
  surfaced_transient o <> None -> surfaced_retryable o <> None.
Proof.
  destruct (surfaced_transient o) as [s|] eqn:E; [|contradiction].
  rewrite (surfaced_transient_retryable o s E). discriminate.
Qed.

Lemma retry_chat_fuel (N : Z) : 1 <= N -> Z.to_nat N = S (Z.to_nat (N - 1)).
Proof. intros; lia. Qed.

(** C2 as stated fails for [max_retries = 0]: no attempt is made, and
    what is raised is no attempt's failure but "Max retries exceeded". *)
Lemma C2_counterexample :
  retry_chat 0 (fun _ => inr (SDK_APIConnectionError "down"))
    = ([], inr (APIConnectionError "Max retries exceeded"))
  /\ (forall b, surfaced_transient ((fun _ : Z => inr (SDK_APIConnectionError "down")) b)
                <> Some (APIConnectionError "Max retries exceeded")).
Proof. split; [reflexivity | intros b; simpl; discriminate]. Qed.

(** C2 (amended).  With [max_retries = N >= 1]: when every attempt fails
    transiently, the loop makes exactly [N] SDK calls, sleeps [2^a]
    seconds after attempt [a] for [a = 0 .. N-2], and raises the [N]th
    failure as its uniform kind; an authentication or bad-request
    failure on the first attempt is raised after that single call.  With
    [N <= 0] no call is made and [APIConnectionError("Max retries
    exceeded")] is raised. *)
Theorem C2_retry_policy (N : Z) (create : Z -> LLMResponse + exn) :
  (N <= 0 -> retry_chat N create = ([], inr (APIConnectionError "Max retries exceeded")))
  /\ (1 <= N ->
      (forall b, 0 <= b < N -> surfaced_transient (create b) <> None) ->
      fst (retry_chat N create) = backoff_trace 0 (Z.to_nat N)
      /\ length (filter is_call (fst (retry_chat N create))) = Z.to_nat N
      /\ (forall s, surfaced_transient (create (N - 1)) = Some s ->
          snd (retry_chat N create) = inr s))
  /\ (1 <= N -> forall m, create 0 = inr (SDK_AuthenticationError m) ->
      retry_chat N create = ([Call 0], inr (AuthenticationError ("Authentication failed: " ++ m))))
  /\ (1 <= N -> forall m, create 0 = inr (SDK_BadRequestError m) ->
      retry_chat N create = ([Call 0], inr (InvalidRequestError ("Invalid request: " ++ m)))).
Proof.
  split; [|split; [|split]].
  - intros HN. unfold retry_chat. now replace (Z.to_nat N) with 0%nat by lia.
  - intros HN Hall.
    destruct (chat_loop_all_retryable N create (Z.to_nat N) 0 ltac:(lia) ltac:(lia)
                ltac:(intros b Hb; apply retryable_transient, Hall; lia)) as [H1 H2].
    unfold retry_chat. split; [exact H1|]. split.
    + rewrite H1. apply backoff_trace_calls.
    + intros s Hs. apply H2, surfaced_transient_retryable, Hs.
  - intros HN m Hc. unfold retry_chat. rewrite (retry_chat_fuel N HN).
    cbn [chat_loop]. now rewrite Hc.
  - intros HN m Hc. unfold retry_chat. rewrite (retry_chat_fuel N HN).
    cbn [chat_loop]. now rewrite Hc.
Qed.

Lemma C2_retry_policy_witness :
  fst (retry_chat 3 (fun _ => inr (SDK_RateLimitError "slow down")))
    = [Call 0; Sleep 1; Call 1; Sleep 2; Call 2]
  /\ snd (retry_chat 3 (fun _ => inr (SDK_RateLimitError "slow down")))
    = inr (RateLimitError "Rate limit exceeded: slow down")
  /\ retry_chat 3 (fun _ => inr (SDK_AuthenticationError "bad key"))
    = ([Call 0], inr (AuthenticationError "Authentication failed: bad key")).
Proof.
  destruct (C2_retry_policy 3 (fun _ => inr (SDK_RateLimitError "slow down")))
    as (_ & H & _).
  destruct (H ltac:(lia) ltac:(intros b _; simpl; discriminate)) as (H1 & _ & H3).
  split; [rewrite H1; reflexivity|]. split; [apply H3; reflexivity|].
  destruct (C2_retry_policy 3 (fun _ => inr (SDK_AuthenticationError "bad key")))
    as (_ & _ & Ha & _).
  apply Ha; [lia | reflexivity].
Defined.

(** C5 as stated fails: an unclassified failure on the final attempt is
    raised wrapped, not as the original exception. *)
Lemma C5_counterexample :
  retry_chat 1 (fun _ => inr (OtherError "KeyError" "boom"))
    = ([Call 0], inr (APIConnectionError "Unexpected error: boom"))
  /\ snd (retry_chat 1 (fun _ => inr (OtherError "KeyError" "boom")))
     <> inr (OtherError "KeyError" "boom").
Proof. split; [reflexivity | discriminate]. Qed.

(** C5 (amended).  A failure outside the four classified SDK kinds at
    attempt [a] of [N] is, before the final attempt, followed by a
    [2^a]-second wait and the next attempt, and on the final attempt
    raised as [APIConnectionError("Unexpected error: " + str(e))], its
    message preserved; if every attempt fails so, the run is the full
    backoff trace ending in that error. *)
Theorem C5_unclassified_failures (N : Z) (create : Z -> LLMResponse + exn) :
  (forall a e, 0 <= a < N -> create a = inr e -> unclassified e = true ->
     (a < N - 1 ->
        chat_loop N create (Z.to_nat (N - a)) a =
          let (t, r) := chat_loop N create (Z.to_nat (N - a - 1)) (a + 1) in
          (Call a :: Sleep (2 ^ a) :: t, r))
     /\ (a = N - 1 ->
        chat_loop N create (Z.to_nat (N - a)) a =
          ([Call a], inr (APIConnectionError ("Unexpected error: " ++ str e)))))
  /\ (1 <= N ->
      (forall b, 0 <= b < N -> exists e, create b = inr e /\ unclassified e = true) ->
      forall e, create (N - 1) = inr e ->
      retry_chat N create
        = (backoff_trace 0 (Z.to_nat N),
           inr (APIConnectionError ("Unexpected error: " ++ str e)))).
Proof.
  assert (Hun : forall e, unclassified e = true ->
            surfaced_retryable (inr e) = Some (APIConnectionError ("Unexpected error: " ++ str e))).
  { intros e He. destruct e; try discriminate; reflexivity. }
  split.
  - intros a e Ha Ec He. split.
    + intros Hlt. replace (Z.to_nat (N - a)) with (S (Z.to_nat (N - a - 1))) by lia.
      apply (chat_loop_again N create _ a e); [lia | exact Ec | rewrite (Hun e He); discriminate].
    + intros Heq. replace (Z.to_nat (N - a)) with (S (Z.to_nat (N - a - 1))) by lia.
      apply (chat_loop_final N create _ a e); [exact Heq | exact Ec | apply Hun, He].
  - intros HN Hall e Ec.
    destruct (chat_loop_all_retryable N create (Z.to_nat N) 0 ltac:(lia) ltac:(lia))
      as [H1 H2].
    { intros b Hb. destruct (Hall b ltac:(lia)) as (e' & E & He').
      rewrite E, (Hun e' He'). discriminate. }
    destruct (Hall (N - 1) ltac:(lia)) as (e' & E & He').
    rewrite Ec in E. injection E as <-.
    unfold retry_chat. destruct (chat_loop N create (Z.to_nat N) 0) as [t r].
    simpl in H1, H2. subst t. f_equal. apply H2. rewrite Ec. apply Hun, He'.
Qed.

Lemma C5_unclassified_failures_witness :
  retry_chat 3 (fun _ => inr (OtherError "KeyError" "boom"))
    = ([Call 0; Sleep 1; Call 1; Sleep 2; Call 2],
       inr (APIConnectionError "Unexpected error: boom")).
Proof.
  destruct (C5_unclassified_failures 3 (fun _ => inr (OtherError "KeyError" "boom")))
    as (_ & H).
  apply (H ltac:(lia) ltac:(intros b _; exists (OtherError "KeyError" "boom"); split; reflexivity)
           (OtherError "KeyError" "boom") eq_refl).
Defined.

End RetryFacts.

Module AnthropicFacts.

Import Conversation Provider SpecSide.
Local Open Scope list_scope.

Lemma last_system_cons (x : WireMsg) (ms : list WireMsg) :
  last_system (x :: ms) =
  match last_system ms with
  | Some c => Some c
  | None => if is_system x then Some (w_content x) else None
  end.
Proof.
  unfold last_system. simpl.
  destruct (is_system x); simpl; destruct (rev (filter is_system ms)); reflexivity.
Qed.

Lemma extract_system_spec (ms : list WireMsg) : forall sys api,
  extract_system ms sys api =
  (match last_system ms with Some c => Some c | None => sys end,
   api ++ filter (fun m => negb (is_system m)) ms).
Proof.
  induction ms as [|x ms IH]; intros sys api.
  - simpl. now rewrite app_nil_r.
  - rewrite last_system_cons. cbn [extract_system filter].
    change (String.eqb (w_role x) "system") with (is_system x).
    destruct (is_system x); simpl; rewrite IH.
    + now destruct (last_system ms).
    + rewrite <- app_assoc. now destruct (last_system ms).
Qed.

(** C3 as stated fails: with two system messages the later one is sent
    as the system field, and neither stays in the body. *)
Lemma C3_counterexample :
  let ms := [mkWire "system" "first"; mkWire "system" "second"; mkWire "user" "hi"] in
  k_system (anthropic_kwargs "claude-3-5-haiku-20241022" ms 0.7 1000) = Some "second"
  /\ k_messages (anthropic_kwargs "claude-3-5-haiku-20241022" ms 0.7 1000)
     = [mkWire "user" "hi"]
  /\ k_system (anthropic_kwargs "claude-3-5-haiku-20241022" ms 0.7 1000) <> Some "first"
  /\ k_messages (anthropic_kwargs "claude-3-5-haiku-20241022" ms 0.7 1000)
     <> [mkWire "system" "second"; mkWire "user" "hi"].
Proof. repeat split; discriminate. Qed.

(** C3 (amended).  The Anthropic request body is the input with every
    [system] message removed, the others in their original order; the
    out-of-band [system] field carries the content of the last [system]
    message, and is left out when there is none or that content is
    empty. *)
Theorem C3_anthropic_system_extraction (model : string) (ms : list WireMsg)
  (temp : float) (max_tok : Z) :
  k_messages (anthropic_kwargs model ms temp max_tok)
    = filter (fun m => negb (is_system m)) ms
  /\ k_system (anthropic_kwargs model ms temp max_tok)
    = match last_system ms with
      | Some c => if String.eqb c "" then None else Some c
      | None => None
      end.
Proof.
  unfold anthropic_kwargs. rewrite extract_system_spec. simpl.
  split; [reflexivity|].
  destruct (last_system ms) as [c|]; [|reflexivity].
  unfold truthy. now destruct (String.eqb c "").
Qed.

End AnthropicFacts.

Module SessionFacts.

Import Base Conversation CostTracker Provider Main.
Local Open Scope list_scope.

(** The settings of the cost-limit scenario: a 0.0001 USD limit. *)
Definition low_limit_settings : Settings :=
  mkSettings "sk-test-key" "sk-ant-test-key" "openai" 0.7%float 1000 0.10%float 0.0001%float.

(** An SDK that always answers. *)
Definition answering_sdk (req : Request) (attempt : Z) : LLMResponse + exn :=
  inl (mkResponse "Hello! How can I help?" 10 5 "gpt-4o-mini" (Some "stop")).

(** An SDK whose requests all fail to connect. *)
Definition unreachable_sdk (req : Request) (attempt : Z) : LLMResponse + exn :=
  inr (SDK_APIConnectionError "network down").

(** [initialize_provider("openai")] on a fresh assistant, then one
    recorded [gpt-4o-mini] call of 10000 input and 5000 output tokens. *)
Definition after_expensive_call (s : Settings) : AIAssistant :=
  let st := snd (fst (initialize_provider "openai" (AIAssistant_init s))) in
  set_state (conversation st)
            (fst (add_entry "openai" "gpt-4o-mini" 10000 5000 (cost_tracker st))) st.

Definition openai_session (s : Settings) : AIAssistant :=
  snd (fst (initialize_provider "openai" (AIAssistant_init s))).

(** C1 as stated fails: with a zero limit (allowed by the settings) a
    fresh assistant already satisfies [should_stop()], but [send] fails
    with "Provider not initialized", not with the cost-limit error. *)
Lemma C1_counterexample :
  let st := AIAssistant_init
              (mkSettings "sk-test-key" "sk-ant-test-key" "openai" 0.7%float 1000
                          0.10%float 0.0%float) in
  should_stop (cost_tracker st) = true
  /\ send_message answering_sdk "Hello" st
       = ([], st, inr (RuntimeError "Provider not initialized"))
  /\ snd (send_message answering_sdk "Hello" st)
       <> inr (RuntimeError ("Cost limit reached! Total: $"
                             ++ Py.format_6f (get_total_cost (cost_tracker st)))).
Proof. split; [vm_compute; reflexivity|]. split; [reflexivity | discriminate]. Qed.

(** C1 (amended).  On an assistant with an active provider whose ledger
    satisfies [should_stop()], [send] raises the cost-limit error, whose
    message carries the total cost to six decimals, makes no SDK call and
    leaves the whole state (conversation included) unchanged.  Without a
    provider it fails with "Provider not initialized" first, also with
    no change. *)
Theorem C1_cost_gate (sdk : Request -> Z -> LLMResponse + exn) (u : string)
  (st : AIAssistant) :
  should_stop (cost_tracker st) = true ->
  (forall p, provider st = Some p ->
     send_message sdk u st
       = ([], st, inr (RuntimeError ("Cost limit reached! Total: $"
                                     ++ Py.format_6f (get_total_cost (cost_tracker st))))))
  /\ (provider st = None ->
      send_message sdk u st = ([], st, inr (RuntimeError "Provider not initialized"))).
Proof.
  intros Hs. split.
  - intros p Hp. unfold send_message. now rewrite Hp, Hs.
  - intros Hp. unfold send_message. now rewrite Hp.
Qed.

Lemma C1_cost_gate_witness :
  send_message answering_sdk "Test" (after_expensive_call low_limit_settings)
    = ([], after_expensive_call low_limit_settings,
       inr (RuntimeError "Cost limit reached! Total: $0.004500")).
Proof.
  destruct (C1_cost_gate answering_sdk "Test" (after_expensive_call low_limit_settings)
              ltac:(vm_compute; reflexivity)) as [H _].
  rewrite (H _ eq_refl). vm_compute. reflexivity.
Defined.

(** C6.  With an active provider and the limit not reached, [send]
    sends the history with the user message already appended; if [chat]
    fails its error propagates unchanged and the conversation ends with
    the user message (no assistant message, no cost entry); if it
    succeeds the assistant reply is appended after it and the call is
    recorded in the ledger (after which [send] raises the [TypeError] of
    its [log_api_call] call). *)
Theorem C6_user_message_before_call (sdk : Request -> Z -> LLMResponse + exn)
  (u : string) (st : AIAssistant) (p : Provider) :
  provider st = Some p -> should_stop (cost_tracker st) = false ->
  let sent := get_messages (conversation st) ++ [mkWire "user" u] in
  let '(evs, st', r) := send_message sdk u st in
  evs = fst (chat sdk p sent None None)
  /\ match snd (chat sdk p sent None None) with
     | inr e =>
         r = inr e
         /\ messages (conversation st') = messages (conversation st) ++ [mkMessage user u]
         /\ cost_tracker st' = cost_tracker st
     | inl resp =>
         r = inr log_api_call_error
         /\ messages (conversation st')
            = messages (conversation st) ++ [mkMessage user u; mkMessage assistant (r_content resp)]
         /\ cost_tracker st'
            = fst (add_entry (provider_name p) (model resp) (input_tokens resp)
                             (output_tokens resp) (cost_tracker st))
     end.
Proof.
  intros Hp Hs. unfold send_message. rewrite Hp, Hs.
  assert (Hg : get_messages (add_user_message u (conversation st))
               = get_messages (conversation st) ++ [mkWire "user" u])
    by (destruct (conversation st); apply ConversationFacts.get_messages_app).
  rewrite Hg.
  destruct (chat sdk p (get_messages (conversation st) ++ [mkWire "user" u]) None None)
    as [evs [resp|e]]; simpl.
  - destruct (add_entry (provider_name p) (model resp) (input_tokens resp)
                        (output_tokens resp) (cost_tracker st)) as [ct2 c].
    simpl. split; [reflexivity|]. split; [reflexivity|].
    split; [now rewrite <- app_assoc | reflexivity].
  - split; [reflexivity|]. now repeat split.
Qed.

Lemma C6_user_message_before_call_witness :
  snd (send_message unreachable_sdk "Hello" (openai_session low_limit_settings))
    = inr (APIConnectionError "Connection failed: network down")
  /\ messages (conversation (snd (fst (send_message unreachable_sdk "Hello"
                                         (openai_session low_limit_settings)))))
    = [mkMessage system "You are a helpful AI assistant. Be concise and friendly.";
       mkMessage user "Hello"]
  /\ snd (send_message answering_sdk "Hello" (openai_session low_limit_settings))
    = inr log_api_call_error
  /\ messages (conversation (snd (fst (send_message answering_sdk "Hello"
                                         (openai_session low_limit_settings)))))
    = [mkMessage system "You are a helpful AI assistant. Be concise and friendly.";
       mkMessage user "Hello"; mkMessage assistant "Hello! How can I help?"].
Proof.
  pose proof (C6_user_message_before_call unreachable_sdk "Hello"
                (openai_session low_limit_settings) _ eq_refl
                ltac:(vm_compute; reflexivity)) as H.
  pose proof (C6_user_message_before_call answering_sdk "Hello"
                (openai_session low_limit_settings) _ eq_refl
                ltac:(vm_compute; reflexivity)) as H'.
  destruct (send_message unreachable_sdk "Hello" (openai_session low_limit_settings))
    as [[evs st'] r].
  destruct (send_message answering_sdk "Hello" (openai_session low_limit_settings))
    as [[evs2 st2] r2].
  destruct H as [_ H]. vm_compute in H. destruct H as (-> & H2 & _).
  destruct H' as [_ H']. vm_compute in H'. destruct H' as (-> & H3 & _).
  split; [reflexivity|]. split; [exact H2|]. split; [reflexivity | exact H3].
Defined.

(** C9.  Switching an active assistant to a name other than ["openai"]
    and ["anthropic"] first closes the current provider, then raises
    [ValueError] without constructing a provider: the assistant keeps
    referring to the closed provider, and its current provider name is
    unchanged. *)
Theorem C9_rejected_switch (name : string) (st : AIAssistant) (p : Provider) :
  provider st = Some p -> name <> "openai" -> name <> "anthropic" ->
  initialize_provider name st
    = ([Closed p], set_provider (Some (close p)) st,
       inr (ValueError ("Unknown provider: " ++ name)))
  /\ closed (close p) = true
  /\ current_provider_name (set_provider (Some (close p)) st) = current_provider_name st.
Proof.
  intros Hp Ho Ha. unfold initialize_provider. rewrite Hp.
  destruct (String.eqb_spec name "openai") as [E|_]; [contradiction|].
  destruct (String.eqb_spec name "anthropic") as [E|_]; [contradiction|].
  repeat split.
Qed.

Lemma C9_rejected_switch_witness :
  let st := openai_session low_limit_settings in
  exists p, provider st = Some p
  /\ initialize_provider "gemini" st
     = ([Closed p], set_provider (Some (close p)) st,
        inr (ValueError "Unknown provider: gemini")).
Proof.
  eexists. split; [reflexivity|].
  apply (C9_rejected_switch "gemini" (openai_session low_limit_settings)); [reflexivity | discriminate | discriminate].
Defined.

End SessionFacts.

(* ------------------------------------------------------------------ *)
(** ** The conversation store beyond the claims *)

Module ConversationMoreFacts.

Import Conversation ConversationMore.
Local Open Scope list_scope.

Lemma role_eqb_true (a b : Role) : role_eqb a b = true <-> a = b.
Proof. destruct a, b; simpl; split; congruence. Qed.

Lemma first_content_none (r : Role) (ms : list Message) :
  first_content r ms = None <-> Forall (fun m => role m <> r) ms.
Proof.
  induction ms as [|m ms IH]; simpl; [split; auto|].
  destruct (role_eqb (role m) r) eqn:E.
  - apply role_eqb_true in E. split; [discriminate|]. intros H. inversion H. contradiction.
  - rewrite IH. split.
    + intros H. constructor; [|exact H]. intros Hr. apply role_eqb_true in Hr. congruence.
    + intros H. inversion H. assumption.
Qed.

Lemma Forall_rev_iff (P : Message -> Prop) (ms : list Message) :
  Forall P (rev ms) <-> Forall P ms.
Proof.
  split; [|apply Forall_rev]. intros H. rewrite <- (rev_involutive ms). now apply Forall_rev.
Qed.

Lemma rev_snoc (ms : list Message) (m : Message) : rev (ms ++ [m]) = m :: rev ms.
Proof. apply rev_unit. Qed.

(** After [add_user_message(c)], [get_last_user_message()] is [c]; after
    [add_assistant_message(c)], [get_last_assistant_message()] is [c].
    A message of another role leaves each getter's answer as it was. *)
Theorem last_message_getters (c : string) (conv : Conversation) :
  get_last_user_message (add_user_message c conv) = Some c
  /\ get_last_assistant_message (add_assistant_message c conv) = Some c
  /\ get_last_user_message (add_assistant_message c conv) = get_last_user_message conv
  /\ get_last_user_message (add_system_message c conv) = get_last_user_message conv
  /\ get_last_assistant_message (add_user_message c conv) = get_last_assistant_message conv
  /\ get_last_assistant_message (add_system_message c conv)
     = get_last_assistant_message conv.
Proof.
  unfold get_last_user_message, get_last_assistant_message,
    add_user_message, add_assistant_message, add_system_message; simpl.
  rewrite !rev_snoc. repeat split; reflexivity.
Qed.

(** [get_last_user_message()] (and [get_last_assistant_message()]) is
    [None] exactly when the store holds no message of that role. *)
Theorem last_message_none (conv : Conversation) :
  (get_last_user_message conv = None <-> Forall (fun m => role m <> user) (messages conv))
  /\ (get_last_assistant_message conv = None
      <-> Forall (fun m => role m <> assistant) (messages conv)).
Proof.
  unfold get_last_user_message, get_last_assistant_message.
  rewrite !first_content_none, !Forall_rev_iff. split; reflexivity.
Qed.

(** After [clear()] neither getter finds a message, and the store holds
    one message (the system prompt) if the prompt is a non-empty string,
    none otherwise. *)
Theorem clear_forgets (conv : Conversation) :
  get_last_user_message (clear conv) = None
  /\ get_last_assistant_message (clear conv) = None
  /\ get_message_count (clear conv) = (if truthy (system_prompt conv) then 1 else 0)%nat
  /\ system_prompt (clear conv) = system_prompt conv.
Proof.
  destruct conv as [ms [p|]]; unfold clear; simpl; [|repeat split].
  destruct (String.eqb p "") eqn:E; simpl; repeat split.
Qed.

Lemma run_op_head (p : string) (o : Op) (conv : Conversation) (rest : list Message) :
  p <> "" -> system_prompt conv = Some p -> messages conv = mkMessage system p :: rest ->
  system_prompt (run_op conv o) = Some p
  /\ exists rest', messages (run_op conv o) = mkMessage system p :: rest'.
Proof.
  intros Hp Hs Hm. destruct o as [c|c|c|]; simpl.
  - split; [exact Hs|]. rewrite Hm. eexists; reflexivity.
  - split; [exact Hs|]. rewrite Hm. eexists; reflexivity.
  - split; [exact Hs|]. rewrite Hm. eexists; reflexivity.
  - unfold clear. rewrite Hs. unfold truthy.
    rewrite (proj2 (String.eqb_neq p "") Hp). simpl.
    split; [reflexivity | exists []; reflexivity].
Qed.

(** Starting from [Conversation(system_prompt=p)] with [p] non-empty, the
    system prompt stays the first message whatever sequence of
    [add_user_message], [add_assistant_message], [add_system_message] and
    [clear] calls follows. *)
Theorem system_prompt_stays_first (p : string) (os : list Op) :
  p <> "" ->
  exists rest, messages (run_ops (Conversation_init (Some p)) os) = mkMessage system p :: rest.
Proof.
  intros Hp. unfold run_ops.
  assert (H0 : system_prompt (Conversation_init (Some p)) = Some p
               /\ exists rest, messages (Conversation_init (Some p)) = mkMessage system p :: rest).
  { unfold Conversation_init, new_conversation, truthy.
    rewrite (proj2 (String.eqb_neq p "") Hp). split; [reflexivity | exists []; reflexivity]. }
  revert H0. generalize (Conversation_init (Some p)).
  induction os as [|o os IH]; intros conv [Hs [rest Hm]]; simpl; [eauto|].
  apply IH. exact (run_op_head p o conv rest Hp Hs Hm).
Qed.

Lemma system_prompt_stays_first_witness :
  "You are terse." <> ""
  /\ exists rest, messages (run_ops (Conversation_init (Some "You are terse."))
                             [AddUser "hi"; AddAssistant "hello"; Clear; AddUser "again"])
                  = mkMessage system "You are terse." :: rest.
Proof.
  split; [discriminate|].
  apply (system_prompt_stays_first "You are terse."
           [AddUser "hi"; AddAssistant "hello"; Clear; AddUser "again"]).
  discriminate.
Defined.

End ConversationMoreFacts.

(* ------------------------------------------------------------------ *)
(** ** The cost ledger beyond the claims *)

Module CostMoreFacts.

Import CostTracker CostMore.
Local Open Scope list_scope.

Lemma fold_add_snoc (xs : list Z) (x : Z) :
  fold_left Z.add (xs ++ [x]) 0%Z = (fold_left Z.add xs 0 + x)%Z.
Proof. now rewrite fold_left_app. Qed.

(** [add_entry] returns [calculate_cost(model, ...)], appends exactly one
    entry carrying it, keeps both thresholds, and the new total is the old
    total plus that cost (one float addition, as [sum] adds the last
    element last). *)
Theorem add_entry_ledger (provider model : string) (i o : Z) (t : CostTracker) :
  let '(t', c) := add_entry provider model i o t in
  c = calculate_cost model i o
  /\ entries t' = entries t ++ [mkEntry provider model i o c]
  /\ warning_threshold t' = warning_threshold t
  /\ limit_threshold t' = limit_threshold t
  /\ get_total_cost t' = (get_total_cost t + c)%float.
Proof.
  unfold add_entry, get_total_cost, Py.fsum. simpl.
  repeat split. now rewrite map_app, fold_left_app.
Qed.

(** [get_total_tokens()] after [add_entry(.., input_tokens=i,
    output_tokens=o)] is the previous pair plus [(i, o)]. *)
Theorem total_tokens_add (provider model : string) (i o : Z) (t : CostTracker) :
  get_total_tokens (fst (add_entry provider model i o t))
  = (fst (get_total_tokens t) + i, snd (get_total_tokens t) + o)%Z.
Proof.
  unfold get_total_tokens, add_entry. cbn [fst snd entries].
  rewrite !map_app. cbn [map]. now rewrite !fold_add_snoc.
Qed.

(** After [reset()] the ledger is empty: no entry, total cost 0, no
    token; the thresholds are kept, so [should_stop()] then holds only
    for a limit [<= 0] (and [should_warn()] only for a warning threshold
    [<= 0]). *)
Theorem reset_empties (t : CostTracker) :
  entries (reset t) = []
  /\ get_total_cost (reset t) = 0%float
  /\ get_total_tokens (reset t) = (0, 0)%Z
  /\ warning_threshold (reset t) = warning_threshold t
  /\ limit_threshold (reset t) = limit_threshold t
  /\ should_stop (reset t) = PrimFloat.leb (limit_threshold t) 0
  /\ should_warn (reset t) = PrimFloat.leb (warning_threshold t) 0.
Proof. repeat split. Qed.

End CostMoreFacts.

(* ------------------------------------------------------------------ *)
(** ** The retry loop beyond the claims *)

Module RetryMoreFacts.

Import Base Retry SpecSide RetryMore RetryFacts.
Local Open Scope list_scope.

Lemma backoff_trace_cons (a : Z) (d : nat) :
  backoff_trace a (S (S d)) = Call a :: Sleep (2 ^ a) :: backoff_trace (a + 1) (S d).
Proof. reflexivity. Qed.

Lemma chat_loop_decided (N : Z) (create : Z -> LLMResponse + exn) (d : nat) :
  forall fuel a,
  a + Z.of_nat fuel = N -> a + Z.of_nat d < N ->
  (forall j, a <= j < a + Z.of_nat d -> surfaced_retryable (create j) <> None) ->
  surfaced_retryable (create (a + Z.of_nat d)) = None ->
  chat_loop N create fuel a = (backoff_trace a (S d), decisive (create (a + Z.of_nat d))).
Proof.
  induction d as [|d IH]; intros fuel a Hf Hd Hall Hk.
  - destruct fuel as [|fuel]; [lia|]. rewrite Z.add_0_r in Hk |- *.
    cbn [chat_loop]. destruct (create a) as [r|e]; [reflexivity|].
    destruct e; simpl in Hk; try discriminate; reflexivity.
  - destruct fuel as [|fuel]; [lia|].
    assert (Hr := Hall a ltac:(lia)).
    destruct (create a) as [r|e] eqn:Ec; [simpl in Hr; contradiction|].
    rewrite (chat_loop_again N create fuel a e ltac:(lia) Ec Hr).
    rewrite (IH fuel (a + 1) ltac:(lia) ltac:(lia)).
    + replace (a + 1 + Z.of_nat d) with (a + Z.of_nat (S d)) by lia. reflexivity.
    + intros j Hj. apply Hall. lia.
    + replace (a + 1 + Z.of_nat d) with (a + Z.of_nat (S d)) by lia. exact Hk.
Qed.

(** The first attempt whose outcome is not retried decides [chat]: if
    attempts [0 .. k-1] of [N] fail retryably and attempt [k < N]
    answers, or fails with an authentication or bad-request error, the
    run is the backoff trace of [k+1] calls and ends with that answer,
    or with that error as [AuthenticationError] / [InvalidRequestError]. *)
Theorem retry_first_decisive (N : Z) (create : Z -> LLMResponse + exn) (k : Z) :
  0 <= k < N ->
  (forall j, 0 <= j < k -> surfaced_retryable (create j) <> None) ->
  surfaced_retryable (create k) = None ->
  retry_chat N create = (backoff_trace 0 (S (Z.to_nat k)), decisive (create k))
  /\ (forall r, create k = inl r -> snd (retry_chat N create) = inl r)
  /\ (forall m, create k = inr (SDK_AuthenticationError m) ->
      snd (retry_chat N create) = inr (AuthenticationError ("Authentication failed: " ++ m)))
  /\ (forall m, create k = inr (SDK_BadRequestError m) ->
      snd (retry_chat N create) = inr (InvalidRequestError ("Invalid request: " ++ m))).
Proof.
  intros Hk Hall Hn.
  assert (E : retry_chat N create = (backoff_trace 0 (S (Z.to_nat k)), decisive (create k))).
  { unfold retry_chat.
    rewrite (chat_loop_decided N create (Z.to_nat k) (Z.to_nat N) 0); try lia.
    - now rewrite Z2Nat.id by lia.
    - intros j Hj. apply Hall. lia.
    - now rewrite Z2Nat.id by lia. }
  rewrite E. repeat split; intros ? Ec; rewrite Ec; reflexivity.
Qed.

Lemma retry_first_decisive_witness :
  let create := fun a : Z => if (a =? 2)%Z then inl (mkResponse "ok" 3 4 "gpt-4o-mini" None)
                             else inr (SDK_RateLimitError "slow down") in
  retry_chat 3 create
  = ([Call 0; Sleep 1; Call 1; Sleep 2; Call 2], inl (mkResponse "ok" 3 4 "gpt-4o-mini" None)).
Proof.
  intros create.
  destruct (retry_first_decisive 3 create 2) as [E _].
  - lia.
  - intros j Hj. unfold create.
    destruct (Z.eqb_spec j 2); [lia|]. simpl. discriminate.
  - reflexivity.
  - exact E.
Defined.

Lemma chat_loop_shape (N : Z) (create : Z -> LLMResponse + exn) (fuel : nat) :
  forall a, a + Z.of_nat fuel = N ->
  exists k, (k <= fuel)%nat /\ ((0 < fuel)%nat -> (0 < k)%nat)
            /\ fst (chat_loop N create fuel a) = backoff_trace a k.
Proof.
  induction fuel as [|f IH]; intros a Hf.
  - exists 0%nat. simpl. repeat split; lia.
  - destruct (IH (a + 1) ltac:(lia)) as [k [Hk [Hpos Ht]]].
    cbn [chat_loop].
    destruct (Z.eqb_spec a (N - 1)) as [Hfin|Hfin].
    + exists 1%nat. split; [lia|]. split; [lia|].
      destruct (create a) as [r|[]]; reflexivity.
    + assert (Hf1 : (0 < f)%nat) by lia.
      assert (Hagain : fst (let (t, r) := chat_loop N create f (a + 1) in
                            (Call a :: wait_with_backoff a ++ t, r))
                       = backoff_trace a (S k)).
      { destruct (chat_loop N create f (a + 1)) as [t r]. simpl in Ht |- *. subst t.
        destruct k as [|k]; [specialize (Hpos Hf1); lia|]. reflexivity. }
      destruct (create a) as [r|[]];
        try (exists 1%nat; split; [lia|]; split; [lia|]; reflexivity);
        exists (S k); (split; [lia|]); (split; [lia|]); exact Hagain.
Qed.

(** Whatever the SDK does, a [chat] run with [max_retries = N] is the
    backoff trace of some number [k] of calls, [k <= max(0, N)], with at
    least one call when [N >= 1]: every call but the last is followed by
    the wait [2^a], and nothing follows the last call. *)
Theorem retry_trace_shape (N : Z) (create : Z -> LLMResponse + exn) :
  exists k, (k <= Z.to_nat N)%nat /\ (1 <= N -> (1 <= k)%nat)
            /\ fst (retry_chat N create) = backoff_trace 0 k.
Proof.
  destruct (Z_le_gt_dec N 0) as [Hn|Hn].
  - exists 0%nat. unfold retry_chat. replace (Z.to_nat N) with 0%nat by lia.
    repeat split; lia.
  - destruct (chat_loop_shape N create (Z.to_nat N) 0 ltac:(lia)) as [k [Hk [Hp Ht]]].
    exists k. repeat split; [lia | intros; lia | exact Ht].
Qed.

Lemma chat_loop_errors (N : Z) (create : Z -> LLMResponse + exn) (fuel : nat) :
  forall a e, snd (chat_loop N create fuel a) = inr e -> is_provider_error e = true.
Proof.
  induction fuel as [|f IH]; intros a e.
  - simpl. now intros [= <-].
  - cbn [chat_loop].
    assert (Hagain : snd (let (t, r) := chat_loop N create f (a + 1) in
                          (Call a :: wait_with_backoff a ++ t, r)) = inr e ->
                     is_provider_error e = true).
    { destruct (chat_loop N create f (a + 1)) as [t r] eqn:Ec. simpl. intros Hr.
      apply (IH (a + 1)). now rewrite Ec. }
    destruct (create a) as [r|[]]; try discriminate;
      try (destruct (Z.eqb a (N - 1)); [simpl; now intros [= <-] | exact Hagain]);
      simpl; now intros [= <-].
Qed.

(** [chat] never lets an exception of the SDK, or any other class,
    escape: every error it raises is one of the [ProviderError] classes
    of base.py, [APIConnectionError], [RateLimitError],
    [AuthenticationError] or [InvalidRequestError]. *)
Theorem chat_errors_are_provider_errors (sdk : Provider.Request -> Z -> LLMResponse + exn)
  (p : Provider.Provider) (ms : list Conversation.WireMsg) (t : option float) (mt : option Z)
  (e : exn) :
  snd (Provider.chat sdk p ms t mt) = inr e -> is_provider_error e = true.
Proof. unfold Provider.chat, retry_chat. apply chat_loop_errors. Qed.

Lemma chat_errors_are_provider_errors_witness :
  let p := Provider.construct Provider.Anthropic "key" "claude-3-5-haiku-20241022" 0.7%float 100 in
  let sdk := fun (_ : Provider.Request) (_ : Z) => @inr LLMResponse exn (OtherError "KeyError" "content") in
  snd (Provider.chat sdk p [] None None) = inr (APIConnectionError "Unexpected error: content")
  /\ is_provider_error (APIConnectionError "Unexpected error: content") = true.
Proof.
  intros p sdk. split; [reflexivity|].
  apply (chat_errors_are_provider_errors sdk p [] None None). reflexivity.
Defined.

Lemma backoff_sleep (k : nat) : forall a, 0 <= a ->
  total_sleep (backoff_trace a (S k)) = 2 ^ a * (2 ^ Z.of_nat k - 1).
Proof.
  induction k as [|k IH]; intros a Ha; [simpl; lia|].
  rewrite backoff_trace_cons. cbn [total_sleep].
  rewrite (IH (a + 1)) by lia.
  rewrite Z.pow_add_r, Nat2Z.inj_succ, Z.pow_succ_r by lia. nia.
Qed.

(** Over a whole [chat] run the waits add up to [2^(c-1) - 1] seconds,
    where [c] (at most [max_retries]) is the number of SDK calls made:
    1 + 2 + ... + 2^(c-2). *)
Theorem retry_total_wait (N : Z) (create : Z -> LLMResponse + exn) :
  1 <= N ->
  let t := fst (retry_chat N create) in
  (1 <= length (filter is_call t) <= Z.to_nat N)%nat
  /\ total_sleep t = 2 ^ (Z.of_nat (length (filter is_call t)) - 1) - 1.
Proof.
  intros HN. unfold retry_chat.
  destruct (chat_loop_shape N create (Z.to_nat N) 0 ltac:(lia)) as [k [Hk [Hp Ht]]].
  rewrite Ht, backoff_trace_calls.
  destruct k as [|k]; [lia|].
  split; [lia|]. rewrite backoff_sleep by lia.
  replace (Z.of_nat (S k) - 1) with (Z.of_nat k) by lia. lia.
Qed.

Lemma retry_total_wait_witness :
  let t := fst (retry_chat 3 (fun _ => inr (SDK_APIConnectionError "down"))) in
  (1 <= length (filter is_call t) <= 3)%nat
  /\ total_sleep t = 2 ^ (Z.of_nat (length (filter is_call t)) - 1) - 1.
Proof. exact (retry_total_wait 3 (fun _ => inr (SDK_APIConnectionError "down")) ltac:(lia)). Defined.

End RetryMoreFacts.

(* ------------------------------------------------------------------ *)
(** ** What the Anthropic provider is sent for a conversation *)

Module AnthropicMoreFacts.

Import Conversation ConversationMore Provider SpecSide AnthropicFacts.
Local Open Scope list_scope.

Lemma not_system_wire (rest : list Message) :
  Forall (fun m => role m <> system) rest ->
  filter is_system (map to_dict rest) = []
  /\ filter (fun m => negb (is_system m)) (map to_dict rest) = map to_dict rest.
Proof.
  induction rest as [|m rest IH]; intros H; [split; reflexivity|].
  inversion H as [|? ? Hm Hr]; subst. destruct (IH Hr) as [IH1 IH2].
  unfold is_system in *; simpl.
  destruct (role m); [| |contradiction]; simpl; rewrite IH1, IH2; split; reflexivity.
Qed.

Lemma run_ops_no_system (p : string) (os : list Op) : forall conv rest,
  p <> "" -> (forall c, ~ In (AddSystem c) os) ->
  system_prompt conv = Some p -> messages conv = mkMessage system p :: rest ->
  Forall (fun m => role m <> system) rest ->
  exists rest', messages (run_ops conv os) = mkMessage system p :: rest'
                /\ Forall (fun m => role m <> system) rest'.
Proof.
  induction os as [|o os IH]; intros conv rest Hp Hno Hs Hm Hr; [exists rest; auto|].
  simpl. unfold run_ops in IH.
  destruct o as [c|c|c|]; simpl.
  - apply (IH _ (rest ++ [mkMessage user c])); auto.
    + intros c' Hc. apply (Hno c'). now right.
    + simpl. now rewrite Hm.
    + apply Forall_app. split; [exact Hr|]. constructor; [discriminate|constructor].
  - apply (IH _ (rest ++ [mkMessage assistant c])); auto.
    + intros c' Hc. apply (Hno c'). now right.
    + simpl. now rewrite Hm.
    + apply Forall_app. split; [exact Hr|]. constructor; [discriminate|constructor].
  - exfalso. apply (Hno c). now left.
  - apply (IH _ []); auto.
    + intros c' Hc. apply (Hno c'). now right.
    + unfold clear. rewrite Hs. now destruct (truthy (Some p)).
    + unfold clear. rewrite Hs. unfold truthy.
      now rewrite (proj2 (String.eqb_neq p "") Hp).
Qed.

(** An Anthropic provider's request for a conversation started with a
    non-empty system prompt [p] and driven only by user messages,
    assistant messages and [clear()] (what [AIAssistant] does) carries
    [p] as its [system] field and, as the body, the conversation's
    messages after the prompt, in order. *)
Theorem anthropic_session_request (p : string) (os : list Op) (pr : Provider) :
  p <> "" -> (forall c, ~ In (AddSystem c) os) -> kind pr = Anthropic ->
  exists rest,
    messages (run_ops (Conversation_init (Some p)) os) = mkMessage system p :: rest
    /\ request pr (get_messages (run_ops (Conversation_init (Some p)) os)) None None
       = AnthropicRequest (mkKwargs (p_model pr) (map to_dict rest)
                                    (p_temperature pr) (p_max_tokens pr) (Some p)).
Proof.
  intros Hp Hno Hk.
  assert (Hinit : messages (Conversation_init (Some p)) = [mkMessage system p]).
  { unfold Conversation_init, new_conversation, truthy.
    now rewrite (proj2 (String.eqb_neq p "") Hp). }
  assert (Hs : system_prompt (Conversation_init (Some p)) = Some p).
  { unfold Conversation_init, new_conversation. now destruct (truthy (Some p)). }
  destruct (run_ops_no_system p os (Conversation_init (Some p)) [] Hp Hno Hs Hinit
              (Forall_nil _)) as [rest [Hm Hr]].
  exists rest. split; [exact Hm|].
  unfold request, get_messages. rewrite Hk, Hm.
  destruct (not_system_wire rest Hr) as [H1 H2].
  assert (E1 : last_system (map to_dict (mkMessage system p :: rest)) = Some p).
  { unfold last_system. cbn [map filter]. unfold is_system at 1. simpl. now rewrite H1. }
  assert (E2 : filter (fun m => negb (is_system m)) (map to_dict (mkMessage system p :: rest))
               = map to_dict rest).
  { cbn [map filter]. unfold is_system at 1. simpl. exact H2. }
  unfold anthropic_kwargs. rewrite extract_system_spec, E1, E2. simpl.
  unfold truthy. now rewrite (proj2 (String.eqb_neq p "") Hp).
Qed.

Lemma anthropic_session_request_witness :
  exists rest,
    messages (run_ops (Conversation_init (Some "Be brief.")) [AddUser "hi"; AddAssistant "hey"])
      = mkMessage system "Be brief." :: rest
    /\ request (construct Anthropic "key" "claude-3-5-haiku-20241022" 0.5%float 200)
         (get_messages (run_ops (Conversation_init (Some "Be brief."))
                                [AddUser "hi"; AddAssistant "hey"])) None None
       = AnthropicRequest (mkKwargs "claude-3-5-haiku-20241022" (map to_dict rest)
                                    0.5%float 200 (Some "Be brief.")).
Proof.
  apply (anthropic_session_request "Be brief." [AddUser "hi"; AddAssistant "hey"]
           (construct Anthropic "key" "claude-3-5-haiku-20241022" 0.5%float 200)).
  - discriminate.
  - intros c [H|[H|[]]]; discriminate.
  - reflexivity.
Defined.

End AnthropicMoreFacts.

(* ------------------------------------------------------------------ *)
(** ** The assistant across a session *)

Module SessionMoreFacts.

Import Base Conversation CostTracker Provider Main Repl PyStr RetryMore RetryMoreFacts.
Local Open Scope list_scope.

Ltac conj_split := repeat match goal with |- _ /\ _ => split end.

Lemma switch_valid (name : string) (st : AIAssistant) :
  name = "openai" \/ name = "anthropic" ->
  let '(effs, st', r) := initialize_provider name st in
  r = inl tt
  /\ conversation st' = conversation st /\ cost_tracker st' = cost_tracker st
  /\ settings st' = settings st /\ current_provider_name st' = name
  /\ exists q, provider st' = Some q /\ provider_name q = name /\ closed q = false
     /\ max_retries q = 3%Z
     /\ p_model q = (if String.eqb name "openai" then "gpt-4o-mini"
                     else "claude-3-5-haiku-20241022")
     /\ effs = match provider st with Some old => [Closed old] | None => [] end
               ++ [Constructed q].
Proof.
  intros [-> | ->]; unfold initialize_provider;
    destruct (provider st) as [old|]; simpl; repeat split; eexists; repeat split.
Qed.

(** Switching to ["openai"] or ["anthropic"] succeeds from any state: the
    old provider (if any) is closed first, then one new provider of that
    name is constructed with the name's default model, [max_retries = 3]
    and an open client; the conversation, the cost ledger and the
    settings are kept as they were. *)
Theorem switch_keeps_history (name : string) (st : AIAssistant) :
  name = "openai" \/ name = "anthropic" ->
  let '(effs, st', r) := initialize_provider name st in
  r = inl tt
  /\ conversation st' = conversation st /\ cost_tracker st' = cost_tracker st
  /\ settings st' = settings st /\ current_provider_name st' = name
  /\ exists q, provider st' = Some q /\ provider_name q = name /\ closed q = false
     /\ max_retries q = 3%Z
     /\ p_model q = (if String.eqb name "openai" then "gpt-4o-mini"
                     else "claude-3-5-haiku-20241022")
     /\ effs = match provider st with Some old => [Closed old] | None => [] end
               ++ [Constructed q].
Proof. apply switch_valid. Qed.

Lemma switch_keeps_history_witness :
  let st := snd (fst (initialize_provider "openai"
                        (AIAssistant_init (mkSettings "k1" "k2" "openai" 0.7%float 1000
                                                      0.1%float 1.0%float)))) in
  let '(effs, st', r) := initialize_provider "anthropic" st in
  r = inl tt
  /\ conversation st' = conversation st /\ cost_tracker st' = cost_tracker st
  /\ settings st' = settings st /\ current_provider_name st' = "anthropic"
  /\ exists q, provider st' = Some q /\ provider_name q = "anthropic" /\ closed q = false
     /\ max_retries q = 3%Z
     /\ p_model q = (if String.eqb "anthropic" "openai" then "gpt-4o-mini"
                     else "claude-3-5-haiku-20241022")
     /\ effs = match provider st with Some old => [Closed old] | None => [] end
               ++ [Constructed q].
Proof. intros st. apply (switch_keeps_history "anthropic" st). now right. Defined.

(** The name [current_provider_name] agrees with the installed provider. *)
Lemma initialize_consistent (name : string) (st : AIAssistant) :
  (forall p, provider st = Some p -> provider_name p = current_provider_name st) ->
  let st' := snd (fst (initialize_provider name st)) in
  (forall p, provider st' = Some p -> provider_name p = current_provider_name st')
  /\ cost_tracker st' = cost_tracker st /\ settings st' = settings st.
Proof.
  intros Hc. unfold initialize_provider.
  assert (Hold : forall old, provider st = Some old ->
                 provider_name (close old) = current_provider_name st).
  { intros old Ep. rewrite <- (Hc old Ep). reflexivity. }
  destruct (provider st) as [old|] eqn:Ep;
    destruct (String.eqb_spec name "openai") as [->|Ho];
    try destruct (String.eqb_spec name "anthropic") as [->|Ha]; simpl;
    repeat split.
  all: intros q Hq; simpl in Hq; try rewrite Ep in Hq; try discriminate Hq;
    injection Hq as <-; try reflexivity; apply Hold; reflexivity.
Qed.

Lemma send_message_keeps (sdk : Request -> Z -> LLMResponse + exn) (u : string)
  (st : AIAssistant) :
  let st' := snd (fst (send_message sdk u st)) in
  provider st' = provider st /\ current_provider_name st' = current_provider_name st
  /\ settings st' = settings st
  /\ warning_threshold (cost_tracker st') = warning_threshold (cost_tracker st)
  /\ limit_threshold (cost_tracker st') = limit_threshold (cost_tracker st)
  /\ exists new, entries (cost_tracker st') = entries (cost_tracker st) ++ new.
Proof.
  unfold send_message. destruct (provider st) as [p|] eqn:Ep.
  - destruct (should_stop (cost_tracker st)).
    + simpl. conj_split; try reflexivity; try assumption. exists nil. now rewrite app_nil_r.
    + destruct (chat sdk p (get_messages (add_user_message u (conversation st))) None None)
        as [evs [resp|e]].
      * simpl. conj_split; try reflexivity; try assumption. eexists; reflexivity.
      * simpl. conj_split; try reflexivity; try assumption. exists nil. now rewrite app_nil_r.
  - simpl. conj_split; try reflexivity; try assumption. exists nil. now rewrite app_nil_r.
Qed.

Lemma handle_command_keeps strip lower split_ws slice100 (cmd : string) (st : AIAssistant) :
  let st' := fst (handle_command strip lower split_ws slice100 cmd st) in
  provider st' = provider st /\ current_provider_name st' = current_provider_name st
  /\ settings st' = settings st /\ cost_tracker st' = cost_tracker st
  /\ conversation st' = (if String.eqb (lower (strip cmd)) "/clear"
                         then clear (conversation st) else conversation st).
Proof.
  unfold handle_command.
  destruct (String.eqb_spec (lower (strip cmd)) "/help") as [E|_].
  { rewrite E. conj_split; try reflexivity. }
  destruct (String.eqb_spec (lower (strip cmd)) "/clear") as [E|Hc].
  { conj_split; try reflexivity. }
  destruct (String.eqb (lower (strip cmd)) "/quit" || String.eqb (lower (strip cmd)) "/exit");
    [conj_split; try reflexivity|].
  destruct (startswith "/model" (lower (strip cmd))).
  { destruct (negb _); [conj_split; try reflexivity|]. destruct (negb _); conj_split; try reflexivity. }
  destruct (String.eqb (lower (strip cmd)) "/cost"); [conj_split; try reflexivity|].
  destruct (String.eqb (lower (strip cmd)) "/history"); [|conj_split; try reflexivity].
  destruct (messages (conversation st)); conj_split; try reflexivity.
Qed.

Lemma repl_step_keeps strip lower split_ws slice100 sdk (raw : string) (st : AIAssistant) :
  (forall p, provider st = Some p -> provider_name p = current_provider_name st) ->
  let st' := fst (repl_step strip lower split_ws slice100 sdk raw st) in
  (forall p, provider st' = Some p -> provider_name p = current_provider_name st')
  /\ settings st' = settings st
  /\ warning_threshold (cost_tracker st') = warning_threshold (cost_tracker st)
  /\ limit_threshold (cost_tracker st') = limit_threshold (cost_tracker st)
  /\ exists new, entries (cost_tracker st') = entries (cost_tracker st) ++ new.
Proof.
  intros Hc. unfold repl_step.
  destruct (String.eqb (strip raw) ""); [conj_split; try reflexivity; [exact Hc | exists nil; now rewrite app_nil_r]|].
  destruct (startswith "/" (strip raw)).
  - destruct (handle_command_keeps strip lower split_ws slice100 (strip raw) st)
      as (Hp & Hn & Hs & Ht & _).
    destruct (handle_command strip lower split_ws slice100 (strip raw) st) as [st1 res].
    simpl in Hp, Hn, Hs, Ht.
    assert (Hc1 : forall p, provider st1 = Some p -> provider_name p = current_provider_name st1).
    { intros p. rewrite Hp, Hn. apply Hc. }
    assert (Hdone : (forall p, provider st1 = Some p -> provider_name p = current_provider_name st1)
                    /\ settings st1 = settings st
                    /\ warning_threshold (cost_tracker st1) = warning_threshold (cost_tracker st)
                    /\ limit_threshold (cost_tracker st1) = limit_threshold (cost_tracker st)
                    /\ exists new, entries (cost_tracker st1) = entries (cost_tracker st) ++ new).
    { rewrite Hs, Ht. conj_split; try reflexivity; [exact Hc1 | exists nil; now rewrite app_nil_r]. }
    destruct res as [r|]; [|exact Hdone].
    destruct (String.eqb r "QUIT"); [exact Hdone|].
    destruct (startswith "SWITCH_MODEL:" r); [|exact Hdone].
    destruct (nth_error (split_on ":" r) 1) as [name|]; [|exact Hdone].
    destruct (initialize_consistent name st1 Hc1) as (Hc2 & Ht2 & Hs2).
    destruct (initialize_provider name st1) as [[effs st2] [u|e]]; simpl in *;
      (split; [exact Hc2|]); rewrite Hs2, Ht2; exact (proj2 Hdone).
  - destruct (send_message_keeps sdk (strip raw) st) as (Hp & Hn & Hs & Hw & Hl & Hnew).
    destruct (send_message sdk (strip raw) st) as [[evs st1] res]. simpl in *.
    assert (Hc1 : forall p, provider st1 = Some p -> provider_name p = current_provider_name st1).
    { intros p. rewrite Hp, Hn. apply Hc. }
    destruct res as [s|[]]; try destruct (contains "Cost limit" msg); simpl;
      conj_split; try reflexivity; assumption.
Qed.

(** Over any run of the main loop (any input lines, any SDK behaviour),
    from a state whose [current_provider_name] names the installed
    provider: that agreement persists, the settings and both thresholds
    never change, and the cost ledger only grows: no command or error
    removes an entry. *)
Theorem session_invariants strip lower split_ws slice100
  (lines : list ((Request -> Z -> LLMResponse + exn) * string)) (st : AIAssistant) :
  (forall p, provider st = Some p -> provider_name p = current_provider_name st) ->
  let st' := fst (run_repl strip lower split_ws slice100 lines st) in
  (forall p, provider st' = Some p -> provider_name p = current_provider_name st')
  /\ settings st' = settings st
  /\ warning_threshold (cost_tracker st') = warning_threshold (cost_tracker st)
  /\ limit_threshold (cost_tracker st') = limit_threshold (cost_tracker st)
  /\ exists new, entries (cost_tracker st') = entries (cost_tracker st) ++ new.
Proof.
  revert st. induction lines as [|[sdk raw] rest IH]; intros st Hc.
  - simpl. conj_split; try reflexivity; [exact Hc | exists nil; now rewrite app_nil_r].
  - simpl.
    destruct (repl_step_keeps strip lower split_ws slice100 sdk raw st Hc)
      as (Hc1 & Hs1 & Hw1 & Hl1 & [n1 Hn1]).
    destruct (repl_step strip lower split_ws slice100 sdk raw st) as [st1 o]. simpl in *.
    assert (Hrest := IH st1 Hc1).
    destruct (run_repl strip lower split_ws slice100 rest st1) as [st2 os] eqn:Er.
    simpl in Hrest. destruct Hrest as (Hc2 & Hs2 & Hw2 & Hl2 & [n2 Hn2]).
    destruct o; simpl; conj_split; try reflexivity;
      try assumption; try congruence;
      try (exists n1; exact Hn1);
      exists (n1 ++ n2); now rewrite Hn2, Hn1, app_assoc.
Qed.

Lemma session_invariants_witness :
  let st := AIAssistant_init (mkSettings "k1" "k2" "openai" 0.7%float 1000 0.1%float 1.0%float) in
  let sdk := fun (_ : Request) (_ : Z) =>
               @inl LLMResponse exn (mkResponse "Hi!" 12 3 "gpt-4o-mini" (Some "stop")) in
  let lines := [(sdk, "/model openai"); (sdk, "hello"); (sdk, "/clear"); (sdk, "/model anthropic")] in
  let st' := fst (run_repl (fun s => s) (fun s => s) (fun s => [s]) (fun s => s) lines st) in
  (forall p, provider st' = Some p -> provider_name p = current_provider_name st')
  /\ settings st' = settings st
  /\ warning_threshold (cost_tracker st') = warning_threshold (cost_tracker st)
  /\ limit_threshold (cost_tracker st') = limit_threshold (cost_tracker st)
  /\ exists new, entries (cost_tracker st') = entries (cost_tracker st) ++ new.
Proof.
  intros st sdk lines.
  apply (session_invariants (fun s => s) (fun s => s) (fun s => [s]) (fun s => s) lines st).
  intros p Hp. discriminate Hp.
Defined.

(** Each [send_message] whose [chat] call answers records its cost under
    the name of the active provider (before the [TypeError] of its
    [log_api_call] call): on a state whose [current_provider_name] names
    the installed provider, the one new entry carries that name, the
    response's model and token counts, and [calculate_cost] of them. *)
Theorem cost_entries_name_current_provider (sdk : Request -> Z -> LLMResponse + exn)
  (u : string) (st : AIAssistant) (p : Provider) (resp : LLMResponse) :
  (forall q, provider st = Some q -> provider_name q = current_provider_name st) ->
  provider st = Some p -> should_stop (cost_tracker st) = false ->
  snd (chat sdk p (get_messages (add_user_message u (conversation st))) None None) = inl resp ->
  entries (cost_tracker (snd (fst (send_message sdk u st))))
  = entries (cost_tracker st)
    ++ [mkEntry (current_provider_name st) (model resp) (input_tokens resp)
                (output_tokens resp)
                (calculate_cost (model resp) (input_tokens resp) (output_tokens resp))].
Proof.
  intros Hc Hp Hs Hr. unfold send_message. rewrite Hp, Hs.
  destruct (chat sdk p (get_messages (add_user_message u (conversation st))) None None)
    as [evs r]. simpl in Hr. subst r. simpl. rewrite (Hc p Hp). reflexivity.
Qed.

Lemma cost_entries_name_current_provider_witness :
  let st := snd (fst (initialize_provider "anthropic"
                        (AIAssistant_init (mkSettings "k1" "k2" "openai" 0.7%float 1000
                                                      0.1%float 1.0%float)))) in
  let sdk := fun (_ : Request) (_ : Z) =>
               @inl LLMResponse exn (mkResponse "Hi!" 12 3 "claude-3-5-haiku-20241022" None) in
  entries (cost_tracker (snd (fst (send_message sdk "hello" st))))
  = [mkEntry "anthropic" "claude-3-5-haiku-20241022" 12 3
             (calculate_cost "claude-3-5-haiku-20241022" 12 3)].
Proof.
  intros st sdk.
  exact (cost_entries_name_current_provider sdk "hello" st
           (construct Anthropic "k2" "claude-3-5-haiku-20241022" 0.7%float 1000)
           (mkResponse "Hi!" 12 3 "claude-3-5-haiku-20241022" None)
           ltac:(intros q [= <-]; reflexivity) eq_refl ltac:(vm_compute; reflexivity) eq_refl).
Defined.

End SessionMoreFacts.

(* ------------------------------------------------------------------ *)
(** ** Commands and the main loop *)

Module ReplFacts.

Import Base Conversation CostTracker Provider Main Repl PyStr RetryMore RetryMoreFacts.
Local Open Scope list_scope.

Lemma summary_head (t : CostTracker) : exists tl, CostMore.get_summary t = String "=" tl.
Proof.
  unfold CostMore.get_summary, CostMore.summary_lines.
  destruct (CostMore.get_total_tokens t) as [ti to]. eexists. reflexivity.
Qed.

Lemma handle_command_results strip lower split_ws slice100 (cmd : string) (st : AIAssistant)
  (r : string) :
  snd (handle_command strip lower split_ws slice100 cmd st) = Some r ->
  (r = "QUIT" <-> (lower (strip cmd) = "/quit" \/ lower (strip cmd) = "/exit"))
  /\ (startswith "SWITCH_MODEL:" r = true ->
      exists q, r = ("SWITCH_MODEL:" ++ q)%string /\ (q = "openai" \/ q = "anthropic")).
Proof.
  unfold handle_command. cbv zeta. generalize (lower (strip cmd)) as c. intros c.
  destruct (String.eqb_spec c "/help") as [->|N1].
  { intros [= <-]. split; [split; [discriminate | intros [H|H]; discriminate]
                          | vm_compute; discriminate]. }
  destruct (String.eqb_spec c "/clear") as [->|N2].
  { intros [= <-]. split; [split; [discriminate | intros [H|H]; discriminate]
                          | vm_compute; discriminate]. }
  destruct (String.eqb_spec c "/quit") as [->|N3].
  { intros [= <-]. split; [split; auto | vm_compute; discriminate]. }
  destruct (String.eqb_spec c "/exit") as [->|N4].
  { intros [= <-]. split; [split; auto | vm_compute; discriminate]. }
  simpl. destruct (startswith "/model" c).
  { destruct (negb (Nat.eqb (length (split_ws c)) 2)).
    { intros [= <-]. split; [split; [discriminate | intros [H|H]; contradiction]
                            | vm_compute; discriminate]. }
    destruct (negb (String.eqb (lower (nth 1 (split_ws c) "")) "openai"
                    || String.eqb (lower (nth 1 (split_ws c) "")) "anthropic")) eqn:Ev.
    { intros [= <-]. split; [split; [discriminate | intros [H|H]; contradiction]
                            | vm_compute; discriminate]. }
    intros [= <-]. split; [split; [discriminate | intros [H|H]; contradiction]|].
    intros _. eexists. split; [reflexivity|].
    apply negb_false_iff, orb_true_iff in Ev.
    destruct Ev as [H|H]; apply String.eqb_eq in H; auto. }
  destruct (String.eqb_spec c "/cost") as [->|N5].
  { intros [= <-]. destruct (summary_head (cost_tracker st)) as [tl ->].
    split; [split; [discriminate | intros [H|H]; discriminate] | vm_compute; discriminate]. }
  destruct (String.eqb c "/history"); [|discriminate].
  destruct (messages (conversation st)) as [|m ms]; simpl.
  { intros [= <-]. split; [split; [discriminate | intros [H|H]; contradiction]
                          | vm_compute; discriminate]. }
  intros [= <-]. split; [split; [discriminate | intros [H|H]; contradiction]
                        | vm_compute; discriminate].
Qed.

Lemma handle_command_none strip lower split_ws slice100 (cmd : string) (st : AIAssistant) :
  snd (handle_command strip lower split_ws slice100 cmd st) = None
  <-> (~ In (lower (strip cmd)) ["/help"; "/clear"; "/quit"; "/exit"; "/cost"; "/history"]
       /\ startswith "/model" (lower (strip cmd)) = false).
Proof.
  unfold handle_command. cbv zeta. generalize (lower (strip cmd)) as c. intros c.
  destruct (String.eqb_spec c "/help") as [->|N1].
  { split; [discriminate | intros [H _]; exfalso; apply H; simpl; auto]. }
  destruct (String.eqb_spec c "/clear") as [->|N2].
  { split; [discriminate | intros [H _]; exfalso; apply H; simpl; auto]. }
  destruct (String.eqb_spec c "/quit") as [->|N3].
  { split; [discriminate | intros [H _]; exfalso; apply H; simpl; auto]. }
  destruct (String.eqb_spec c "/exit") as [->|N4].
  { split; [discriminate | intros [H _]; exfalso; apply H; simpl; auto 6]. }
  simpl. destruct (startswith "/model" c) eqn:Em.
  { split; [|intros [_ H]; discriminate H].
    destruct (negb _); [discriminate|]. destruct (negb _); discriminate. }
  destruct (String.eqb_spec c "/cost") as [->|N5].
  { split; [discriminate | intros [H _]; exfalso; apply H; simpl; auto 7]. }
  destruct (String.eqb_spec c "/history") as [->|N6].
  { split; [destruct (messages (conversation st)); discriminate
           | intros [H _]; exfalso; apply H; simpl; auto 8]. }
  split; [|reflexivity]. intros _. split; [|reflexivity].
  simpl. intros [H|[H|[H|[H|[H|[H|[]]]]]]]; congruence.
Qed.

(** [handle_command] answers [None] exactly for an unknown command: the
    stripped, lower-cased text is none of [/help], [/clear], [/quit],
    [/exit], [/cost], [/history] and does not start with [/model]. *)
Theorem unknown_commands (strip lower : string -> string) (split_ws : string -> list string)
  (slice100 : string -> string) (cmd : string) (st : AIAssistant) :
  snd (handle_command strip lower split_ws slice100 cmd st) = None
  <-> (~ In (lower (strip cmd)) ["/help"; "/clear"; "/quit"; "/exit"; "/cost"; "/history"]
       /\ startswith "/model" (lower (strip cmd)) = false).
Proof. apply handle_command_none. Qed.

(** A ["SWITCH_MODEL:..."] answer of [handle_command] always names a
    supported provider: whatever the user typed after [/model], the text
    after the prefix is ["openai"] or ["anthropic"]; no other answer
    (help, summary, history, ...) starts with that prefix. *)
Theorem switch_requests_are_valid (strip lower : string -> string)
  (split_ws : string -> list string) (slice100 : string -> string)
  (cmd : string) (st : AIAssistant) (r : string) :
  snd (handle_command strip lower split_ws slice100 cmd st) = Some r ->
  startswith "SWITCH_MODEL:" r = true ->
  exists q, r = ("SWITCH_MODEL:" ++ q)%string /\ (q = "openai" \/ q = "anthropic").
Proof.
  intros H. exact (proj2 (handle_command_results strip lower split_ws slice100 cmd st r H)).
Qed.

Lemma switch_requests_are_valid_witness :
  let st := AIAssistant_init (mkSettings "k1" "k2" "openai" 0.7%float 1000 0.1%float 1.0%float) in
  exists q, "SWITCH_MODEL:anthropic" = ("SWITCH_MODEL:" ++ q)%string
            /\ (q = "openai" \/ q = "anthropic").
Proof.
  intros st.
  apply (switch_requests_are_valid (fun s => s) (fun s => s) (fun _ => ["/model"; "anthropic"])
           (fun s => s) "/model anthropic" st); reflexivity.
Defined.

(** [handle_command] touches nothing but the conversation, and that only
    for [/clear], which [clear()]s it: the provider, its name, the
    settings and the cost ledger are left as they were for every
    command. *)
Theorem commands_keep_state (strip lower : string -> string)
  (split_ws : string -> list string) (slice100 : string -> string)
  (cmd : string) (st : AIAssistant) :
  let st' := fst (handle_command strip lower split_ws slice100 cmd st) in
  provider st' = provider st /\ current_provider_name st' = current_provider_name st
  /\ settings st' = settings st /\ cost_tracker st' = cost_tracker st
  /\ conversation st' = (if String.eqb (lower (strip cmd)) "/clear"
                         then clear (conversation st) else conversation st).
Proof. apply SessionMoreFacts.handle_command_keeps. Qed.

Lemma split_switch (q : string) :
  q = "openai" \/ q = "anthropic" ->
  nth_error (split_on ":" ("SWITCH_MODEL:" ++ q)%string) 1 = Some q.
Proof. intros [-> | ->]; reflexivity. Qed.

(** In the main loop a line that starts with ["/"] (after [strip()]) is
    never an error: the iteration ends the loop exactly for [/quit] and
    [/exit], and otherwise continues, a [/model] switch included (its
    [initialize_provider] cannot fail). *)
Theorem command_lines_never_fail (strip lower : string -> string)
  (split_ws : string -> list string) (slice100 : string -> string)
  (sdk : Request -> Z -> LLMResponse + exn) (raw : string) (st : AIAssistant) :
  startswith "/" (strip raw) = true ->
  snd (repl_step strip lower split_ws slice100 sdk raw st)
  = if String.eqb (lower (strip (strip raw))) "/quit"
       || String.eqb (lower (strip (strip raw))) "/exit" then Quit else Continue.
Proof.
  intros Hs. unfold repl_step.
  destruct (String.eqb_spec (strip raw) "") as [E|_]; [rewrite E in Hs; discriminate|].
  rewrite Hs.
  assert (Hres := handle_command_results strip lower split_ws slice100 (strip raw) st).
  assert (Hnone := handle_command_none strip lower split_ws slice100 (strip raw) st).
  destruct (handle_command strip lower split_ws slice100 (strip raw) st) as [st1 [r|]].
  - destruct (Hres r eq_refl) as [Hq Hsw]. clear Hres Hnone.
    destruct (String.eqb_spec r "QUIT") as [Eq|Nq].
    + destruct (proj1 Hq Eq) as [-> | ->]; reflexivity.
    + assert (Hc : String.eqb (lower (strip (strip raw))) "/quit"
                   || String.eqb (lower (strip (strip raw))) "/exit" = false).
      { apply orb_false_iff. split; apply String.eqb_neq; intros E; apply Nq, Hq; auto. }
      rewrite Hc.
      destruct (startswith "SWITCH_MODEL:" r) eqn:Esw; [|reflexivity].
      destruct (Hsw eq_refl) as [q [-> Hv]].
      rewrite (split_switch q Hv).
      assert (Hi := SessionMoreFacts.switch_valid q st1 Hv).
      destruct (initialize_provider q st1) as [[effs st2] res].
      destruct Hi as [-> _]. reflexivity.
  - destruct (proj1 Hnone eq_refl) as [Hin _].
    assert (Hc : String.eqb (lower (strip (strip raw))) "/quit"
                 || String.eqb (lower (strip (strip raw))) "/exit" = false).
    { apply orb_false_iff. split; apply String.eqb_neq; intros E; apply Hin; rewrite E;
        simpl; auto. }
    rewrite Hc. reflexivity.
Qed.

Lemma command_lines_never_fail_witness :
  let st := snd (fst (initialize_provider "openai"
                        (AIAssistant_init (mkSettings "k1" "k2" "openai" 0.7%float 1000
                                                      0.1%float 1.0%float)))) in
  let sdk := fun (_ : Request) (_ : Z) => @inr LLMResponse exn (SDK_APIConnectionError "down") in
  snd (repl_step (fun s => s) (fun s => s) (fun _ => ["/model"; "anthropic"]) (fun s => s)
                 sdk "/model anthropic" st) = Continue.
Proof.
  intros st sdk.
  exact (command_lines_never_fail (fun s => s) (fun s => s) (fun _ => ["/model"; "anthropic"])
           (fun s => s) sdk "/model anthropic" st eq_refl).
Defined.

Lemma prefix_app (p x : string) : String.prefix p (p ++ x)%string = true.
Proof.
  induction p as [|a p IH]; [destruct x; reflexivity|].
  simpl. destruct (Ascii.ascii_dec a a) as [_|N]; [exact IH | contradiction].
Qed.

Lemma contains_of_prefix (n h : string) : String.prefix n h = true -> contains n h = true.
Proof. intros H. destruct h; cbn [contains]; rewrite H; reflexivity. Qed.

(** A line that is not a command ends the main loop (the [break] of
    [except RuntimeError] on "Cost limit") exactly when a provider is
    installed and [should_stop()] already holds; the loop then stops with
    the assistant unchanged.  Failed API calls, and the [TypeError] a
    successful one ends with, never stop it. *)
Theorem plain_lines_stop_on_cost (strip lower : string -> string)
  (split_ws : string -> list string) (slice100 : string -> string)
  (sdk : Request -> Z -> LLMResponse + exn) (raw : string) (st : AIAssistant) :
  strip raw <> "" -> startswith "/" (strip raw) = false ->
  ((exists e, snd (repl_step strip lower split_ws slice100 sdk raw st) = CostStop e)
   <-> (provider st <> None /\ should_stop (cost_tracker st) = true))
  /\ (forall e, snd (repl_step strip lower split_ws slice100 sdk raw st) = CostStop e ->
      fst (repl_step strip lower split_ws slice100 sdk raw st) = st).
Proof.
  intros Hne Hs. unfold repl_step.
  rewrite (proj2 (String.eqb_neq (strip raw) "") Hne), Hs.
  unfold send_message. destruct (provider st) as [p|] eqn:Ep.
  - destruct (should_stop (cost_tracker st)) eqn:Est.
    + assert (Hc : forall y, contains "Cost limit" ("Cost limit reached! Total: $" ++ y)%string
                             = true).
      { intros y. exact (contains_of_prefix _ _ (prefix_app "Cost limit" (" reached! Total: $" ++ y))). }
      cbv beta iota zeta. rewrite Hc. simpl.
      split; [split; [intros _; split; [discriminate | reflexivity] | intros _; eexists; reflexivity]
             | intros e _; reflexivity].
    + assert (Herr := chat_loop_errors (max_retries p)
                        (sdk (request p (get_messages (add_user_message (strip raw)
                                                          (conversation st))) None None))
                        (Z.to_nat (max_retries p)) 0).
      unfold chat, Retry.retry_chat.
      destruct (Retry.chat_loop _ _ _ 0) as [evs [resp|e]]; simpl in Herr.
      * split; [split; [intros [e H]; discriminate H | intros [_ H]; discriminate H]
               | intros e H; discriminate H].
      * specialize (Herr e eq_refl).
        destruct e; try discriminate Herr;
          (split; [split; [intros [e' H]; discriminate H | intros [_ H]; discriminate H]
                  | intros e' H; discriminate H]).
  - simpl.
    split; [split; [intros [e H]; discriminate H | intros [H _]; contradiction]
           | intros e H; discriminate H].
Qed.

Lemma plain_lines_stop_on_cost_witness :
  let st := snd (fst (initialize_provider "openai"
                        (AIAssistant_init (mkSettings "k1" "k2" "openai" 0.7%float 1000
                                                      0.1%float 0.0%float)))) in
  let sdk := fun (_ : Request) (_ : Z) =>
               @inl LLMResponse exn (mkResponse "Hi!" 12 3 "gpt-4o-mini" (Some "stop")) in
  exists e, snd (repl_step (fun s => s) (fun s => s) (fun s => [s]) (fun s => s)
                           sdk "hello" st) = CostStop e.
Proof.
  intros st sdk.
  apply (proj2 (proj1 (plain_lines_stop_on_cost (fun s => s) (fun s => s) (fun s => [s])
                         (fun s => s) sdk "hello" st ltac:(discriminate) eq_refl))).
  split; [discriminate | vm_compute; reflexivity].
Defined.

End ReplFacts.

(* ------------------------------------------------------------------ *)
(** ** Settings validation and start-up *)

Module ConfigFacts.

Import Base Conversation Provider Main Config.
Local Open Scope list_scope.

Lemma validate_provider_cases (lower : string -> string) (r v : string) :
  match validate_provider lower r v with
  | inl d => d = lower v /\ (d = "openai" \/ d = "anthropic")
             /\ (lower d = d -> validate_provider lower r d = inl d)
  | inr e => e = ValueError ("Provider must be one of " ++ r ++ ", got '" ++ v ++ "'")
             /\ lower v <> "openai" /\ lower v <> "anthropic"
  end.
Proof.
  unfold validate_provider.
  destruct (String.eqb_spec (lower v) "openai") as [E|N1].
  - simpl. rewrite E. repeat split; auto. intros H. rewrite H. reflexivity.
  - destruct (String.eqb_spec (lower v) "anthropic") as [E|N2]; simpl.
    + rewrite E. repeat split; auto. intros H. rewrite H. reflexivity.
    + repeat split; assumption.
Qed.

(** [validate_provider] accepts a name exactly when its lower-cased form
    is ["openai"] or ["anthropic"], and then returns that lower-cased form
    (validating it again returns it unchanged); otherwise it raises
    [ValueError] quoting the rejected value as given. *)
Theorem validate_provider_outcome (lower : string -> string) (r v : string) :
  match validate_provider lower r v with
  | inl d => d = lower v /\ (d = "openai" \/ d = "anthropic")
             /\ (lower d = d -> validate_provider lower r d = inl d)
  | inr e => e = ValueError ("Provider must be one of " ++ r ++ ", got '" ++ v ++ "'")
             /\ lower v <> "openai" /\ lower v <> "anthropic"
  end.
Proof. apply validate_provider_cases. Qed.

(** [validate_log_level] accepts a level exactly when its upper-cased
    form is one of DEBUG, INFO, WARNING, ERROR, CRITICAL, and then returns
    that form (validating it again returns it unchanged); otherwise it
    raises [ValueError] quoting the rejected value. *)
Theorem validate_log_level_outcome (upper : string -> string) (r v : string) :
  match validate_log_level upper r v with
  | inl u => u = upper v /\ In u ["DEBUG"; "INFO"; "WARNING"; "ERROR"; "CRITICAL"]
             /\ (upper u = u -> validate_log_level upper r u = inl u)
  | inr e => e = ValueError ("Log level must be one of " ++ r ++ ", got '" ++ v ++ "'")
             /\ ~ In (upper v) ["DEBUG"; "INFO"; "WARNING"; "ERROR"; "CRITICAL"]
  end.
Proof.
  unfold validate_log_level.
  destruct (existsb (String.eqb (upper v)) ["DEBUG"; "INFO"; "WARNING"; "ERROR"; "CRITICAL"])
    eqn:E.
  - apply existsb_exists in E. destruct E as [x [Hx Heq]].
    apply String.eqb_eq in Heq. subst x.
    split; [reflexivity|]. split; [exact Hx|].
    intros H. rewrite H.
    assert (E2 : existsb (String.eqb (upper v)) ["DEBUG"; "INFO"; "WARNING"; "ERROR"; "CRITICAL"]
                 = true).
    { apply existsb_exists. exists (upper v). split; [exact Hx | apply String.eqb_refl]. }
    rewrite E2. reflexivity.
  - split; [reflexivity|]. intros Hin.
    assert (E2 : existsb (String.eqb (upper v)) ["DEBUG"; "INFO"; "WARNING"; "ERROR"; "CRITICAL"]
                 = true).
    { apply existsb_exists. exists (upper v). split; [exact Hin | apply String.eqb_refl]. }
    congruence.
Qed.

(** The start of [main()]: with settings whose [default_provider] went
    through [validate_provider], the first [initialize_provider] of a
    fresh [AIAssistant] succeeds, constructs exactly one provider (there
    is nothing to close), of that name, and the conversation holds just
    the built-in system prompt. *)
Theorem validated_startup (lower : string -> string) (r raw d : string) (s : Settings) :
  validate_provider lower r raw = inl d -> default_provider s = d ->
  let '(effs, st, res) :=
    initialize_provider (current_provider_name (AIAssistant_init s)) (AIAssistant_init s) in
  res = inl tt /\ current_provider_name st = d
  /\ messages (conversation st)
     = [mkMessage system "You are a helpful AI assistant. Be concise and friendly."]
  /\ exists q, effs = [Constructed q] /\ provider st = Some q /\ provider_name q = d.
Proof.
  intros Hv Hd. assert (Hc := validate_provider_cases lower r raw). rewrite Hv in Hc.
  destruct Hc as [_ [Hdv _]].
  unfold initialize_provider, AIAssistant_init. simpl. rewrite Hd.
  destruct Hdv as [-> | ->]; simpl; repeat split; eexists; repeat split.
Qed.

Lemma validated_startup_witness :
  let s := mkSettings "k1" "k2" "anthropic" 0.7%float 1000 0.1%float 1.0%float in
  let '(effs, st, res) :=
    initialize_provider (current_provider_name (AIAssistant_init s)) (AIAssistant_init s) in
  res = inl tt /\ current_provider_name st = "anthropic"
  /\ messages (conversation st)
     = [mkMessage system "You are a helpful AI assistant. Be concise and friendly."]
  /\ exists q, effs = [Constructed q] /\ provider st = Some q /\ provider_name q = "anthropic".
Proof.
  intros s.
  apply (validated_startup (fun x => x) "{'openai', 'anthropic'}" "anthropic" "anthropic" s);
    reflexivity.
Defined.

End ConfigFacts.

(* ------------------------------------------------------------------ *)
(** ** The thousands separators of the cost summary *)

Module FormatFacts.

Import PyStr.

Lemma sapp_assoc (a b c : string) : ((a ++ b) ++ c)%string = (a ++ (b ++ c))%string.
Proof. induction a as [|x a IH]; simpl; [reflexivity | now rewrite IH]. Qed.

Lemma digits_acc (f : nat) : forall n acc,
  Py.digits_aux f n acc = (Py.digits_aux f n "" ++ acc)%string.
Proof.
  induction f as [|f IH]; intros n acc; [reflexivity|].
  simpl. destruct (n <? 10)%Z; [reflexivity|].
  rewrite IH, (IH _ (String _ "")), sapp_assoc. reflexivity.
Qed.

Lemma digits_S (f : nat) (n : Z) (acc : string) :
  Py.digits_aux (S f) n acc
  = let d := Ascii.ascii_of_nat (48 + Z.to_nat (n mod 10)) in
    if (n <? 10)%Z then String d acc else Py.digits_aux f (n / 10) (String d acc).
Proof. reflexivity. Qed.

Lemma pow10_succ (f : nat) : (10 ^ Z.of_nat (S f) = 10 * 10 ^ Z.of_nat f)%Z.
Proof. rewrite Nat2Z.inj_succ, Z.pow_succ_r by lia. reflexivity. Qed.

Lemma digits_fuel (f : nat) : forall n g acc,
  (0 <= n < 10 ^ Z.of_nat f)%Z -> (1 <= f)%nat -> (f <= g)%nat ->
  Py.digits_aux g n acc = Py.digits_aux f n acc.
Proof.
  induction f as [|f IH]; intros n g acc Hn Hf Hg; [lia|].
  destruct g as [|g]; [lia|].
  cbn [Py.digits_aux]. destruct (Z.ltb_spec n 10) as [Hs|Hs]; [reflexivity|].
  rewrite pow10_succ in Hn.
  assert (Hf0 : (1 <= f)%nat).
  { destruct f as [|f]; [simpl in Hn; lia | lia]. }
  apply IH; [|exact Hf0|lia].
  split; [apply Z.div_pos; lia|]. apply Z.div_lt_upper_bound; lia.
Qed.

Lemma str_fuel (n : Z) (F : nat) :
  (0 <= n < 10 ^ Z.of_nat F)%Z -> (1 <= F)%nat -> Py.str_of_nonneg n = Py.digits_aux F n "".
Proof.
  intros Hn HF. unfold Py.str_of_nonneg.
  assert (Hl : (n < 10 ^ Z.of_nat (S (Z.to_nat (Z.log2 n))))%Z).
  { rewrite Nat2Z.inj_succ, Z2Nat.id by apply Z.log2_nonneg.
    destruct (Z.eq_dec n 0) as [->|Hz]; [reflexivity|].
    apply Z.lt_le_trans with (2 ^ Z.succ (Z.log2 n))%Z.
    - apply Z.log2_spec. lia.
    - apply Z.pow_le_mono_l. split; [lia | lia]. }
  rewrite <- (digits_fuel (S (Z.to_nat (Z.log2 n))) n (Nat.max (S (Z.to_nat (Z.log2 n))) F))
    by (lia || (split; lia)).
  apply digits_fuel; [split; lia | lia | lia].
Qed.

Lemma n_lt_pow10 (n : Z) : (0 <= n)%Z -> (n < 10 ^ Z.of_nat (S (Z.to_nat n)))%Z.
Proof.
  intros Hn. rewrite pow10_succ, Z2Nat.id by lia.
  assert (H := Z.pow_gt_lin_r 10 n ltac:(lia) Hn). lia.
Qed.

Lemma str_step (n : Z) : (10 <= n)%Z ->
  Py.str_of_nonneg n
  = (Py.str_of_nonneg (n / 10) ++ String (Ascii.ascii_of_nat (48 + Z.to_nat (n mod 10))) "")%string.
Proof.
  intros Hn.
  assert (Hb := n_lt_pow10 n ltac:(lia)).
  rewrite (str_fuel n (S (S (Z.to_nat n)))).
  2: { split; [lia|]. rewrite pow10_succ. lia. }
  2: lia.
  rewrite digits_S. cbv zeta. destruct (Z.ltb_spec n 10) as [Hs|_]; [lia|].
  rewrite digits_acc. f_equal. symmetry. apply str_fuel; [|lia].
  split; [apply Z.div_pos; lia|].
  apply Z.le_lt_trans with n; [apply Z.div_le_upper_bound; lia | exact Hb].
Qed.

Lemma str_small (n : Z) : (0 <= n < 10)%Z ->
  Py.str_of_nonneg n = String (Ascii.ascii_of_nat (48 + Z.to_nat (n mod 10))) "".
Proof.
  intros Hn. rewrite (str_fuel n 1) by (simpl; lia).
  cbn [Py.digits_aux]. destruct (Z.ltb_spec n 10); [reflexivity | lia].
Qed.

Lemma str_group (n : Z) : (1000 <= n)%Z ->
  Py.str_of_nonneg n
  = (Py.str_of_nonneg (n / 1000) ++ pad_left 3 (Py.str_of_nonneg (n mod 1000)))%string.
Proof.
  intros Hn.
  rewrite (str_step n), (str_step (n / 10)), (str_step (n / 10 / 10)) by
    (try apply Z.div_le_lower_bound; try apply Z.div_le_lower_bound; lia).
  replace (n / 10 / 10 / 10)%Z with (n / 1000)%Z by (rewrite !Z.div_div by lia; reflexivity).
  replace (n / 10 / 10)%Z with (n / 100)%Z by (rewrite Z.div_div by lia; reflexivity).
  assert (Hm := Z.mod_pos_bound n 1000 ltac:(lia)).
  assert (E0 : (n mod 10 = (n mod 1000) mod 10)%Z) by (Z.div_mod_to_equations; nia).
  assert (E1 : ((n / 10) mod 10 = ((n mod 1000) / 10) mod 10)%Z)
    by (Z.div_mod_to_equations; nia).
  assert (E2 : ((n / 100) mod 10 = ((n mod 1000) / 100) mod 10)%Z)
    by (Z.div_mod_to_equations; nia).
  rewrite E0, E1, E2.
  revert Hm. generalize (n mod 1000) as m. intros m Hmb.
  destruct (Z_lt_le_dec m 10) as [H1|H1].
  - rewrite (str_small m) by lia.
    replace ((m / 10) mod 10)%Z with 0%Z by (Z.div_mod_to_equations; nia).
    replace ((m / 100) mod 10)%Z with 0%Z by (Z.div_mod_to_equations; nia).
    rewrite !sapp_assoc. unfold pad_left.
      cbn [String.length String.append zeros Nat.sub]. f_equal.
  - destruct (Z_lt_le_dec m 100) as [H2|H2].
    + rewrite (str_step m), (str_small (m / 10)) by (try split; Z.div_mod_to_equations; nia).
      replace ((m / 100) mod 10)%Z with 0%Z by (Z.div_mod_to_equations; nia).
      replace (m / 10 mod 10)%Z with ((m / 10) mod 10)%Z by reflexivity.
      rewrite !sapp_assoc. unfold pad_left.
      cbn [String.length String.append zeros Nat.sub]. f_equal.
    + rewrite (str_step m), (str_step (m / 10)) by (Z.div_mod_to_equations; nia).
      rewrite (str_small (m / 10 / 10)) by (Z.div_mod_to_equations; nia).
      replace (m / 10 / 10)%Z with (m / 100)%Z by (rewrite Z.div_div by lia; reflexivity).
      rewrite !sapp_assoc. unfold pad_left.
      cbn [String.length String.append zeros Nat.sub]. f_equal.
Qed.

Lemma drop_app (a b : string) : drop_commas (a ++ b) = (drop_commas a ++ drop_commas b)%string.
Proof.
  induction a as [|c a IH]; [reflexivity|]. simpl.
  destruct (Ascii.eqb c ","); [exact IH | now rewrite IH].
Qed.

Lemma digit_not_comma (k : nat) : (k < 10)%nat -> Ascii.eqb (Ascii.ascii_of_nat (48 + k)) "," = false.
Proof. intros Hk. do 10 (destruct k as [|k]; [reflexivity|]). lia. Qed.

Lemma drop_digits (f : nat) : forall n acc,
  drop_commas (Py.digits_aux f n acc) = Py.digits_aux f n (drop_commas acc).
Proof.
  induction f as [|f IH]; intros n acc; [reflexivity|].
  assert (Hd : Ascii.eqb (Ascii.ascii_of_nat (48 + Z.to_nat (n mod 10))) "," = false).
  { apply digit_not_comma. assert (H := Z.mod_pos_bound n 10 ltac:(lia)). lia. }
  rewrite !digits_S. cbv zeta. destruct (n <? 10)%Z.
  - cbn [drop_commas]. rewrite Hd. reflexivity.
  - rewrite IH. cbn [drop_commas]. rewrite Hd. reflexivity.
Qed.

Lemma drop_str (n : Z) : drop_commas (Py.str_of_nonneg n) = Py.str_of_nonneg n.
Proof. unfold Py.str_of_nonneg. now rewrite drop_digits. Qed.

Lemma drop_zeros (k : nat) : drop_commas (zeros k) = zeros k.
Proof. induction k as [|k IH]; [reflexivity | simpl; now rewrite IH]. Qed.

Lemma drop_group (f : nat) : forall n, (0 <= n)%Z -> drop_commas (group3 f n) = Py.str_of_nonneg n.
Proof.
  induction f as [|f IH]; intros n Hn; [apply drop_str|].
  cbn [group3]. destruct (Z.ltb_spec n 1000) as [_|H]; [apply drop_str|].
  rewrite drop_app, IH by (apply Z.div_pos; lia).
  rewrite drop_app. cbn [drop_commas Ascii.eqb Bool.eqb].
  unfold pad_left. rewrite drop_app, drop_zeros, drop_str.
  symmetry. apply str_group. exact H.
Qed.

(** [f"{n:,}"] is [str(n)] with commas between groups of three digits:
    taking the commas out gives back [str(n)], for every int [n]. *)
Theorem commas_round_trip (n : Z) : drop_commas (str_int_commas n) = str_int n.
Proof.
  unfold str_int_commas, str_int. destruct (Z.ltb_spec n 0) as [H|H].
  - rewrite drop_app, drop_group by lia. replace (Z.abs n) with (- n)%Z by lia. reflexivity.
  - rewrite drop_app, drop_group by lia. replace (Z.abs n) with n by lia. reflexivity.
Qed.

End FormatFacts.
